(** * taskschedule: the curses front end ([taskschedule/main.py])

    A shallow embedding of [draw] and [main] and the properties of the
    schedule renderer: row colouring, diff-gated clearing, filler rows,
    headers, zebra striping, hour labels and the time column. *)

From Stdlib Require Import ZArith String Ascii List Bool Lia.
From Stdlib Require Import DecimalString DecimalZ DecimalPos.
From stdpp Require Import base option list gmap strings.

Local Open Scope string_scope.
Local Open Scope list_scope.
Local Open Scope Z_scope.

(** ** Python primitives used by [main.py] *)

Module Py.

(** Exceptions that can leave [draw] or [main]. *)
Inductive Exn : Type :=
| KeyError
| IndexError
| ValueError
| SystemExit.

(** [str(n)] for an [int]. *)
Definition str (n : Z) : string := NilZero.string_of_int (Z.to_int n).

(** [int(s)] for a [str]: an optional minus sign and decimal digits.
    Anything else is a [ValueError] (here [None]); the surrounding
    white space, the plus sign and the digit separators that Python also
    takes are left out, so this accepts fewer strings than Python. *)
Definition int (s : string) : option Z := Z.of_int <$> NilZero.int_of_string s.

(** [c * n] for a one-character string [c]: empty when [n <= 0]. *)
Definition mul (c : ascii) (n : Z) : string :=
  string_of_list_ascii (replicate (Z.to_nat n) c).

(** [l[i]] on a list with a non-negative index. *)
Definition getitem {A} (l : list A) (i : nat) : Exn + A :=
  match l !! i with
  | Some x => inr x
  | None => inl IndexError
  end.

End Py.

(** ** The display surface and the clock

    [draw] talks to a curses window, to [time.sleep] and to
    [time.localtime]. The window and [sleep] are modelled by the list of
    calls made on them, in order; the clock by the hour it returns at its
    first, second, ... reading. A call is recorded as it is made: what
    curses does with a write that does not fit the terminal is not part of
    the model. *)

Module Curses.

(** [curses.color_pair(n)] and [curses.A_UNDERLINE], with the values
    of ncurses: the pair number sits in bits 8 to 15, underline is
    bit 17. *)
Definition color_pair (n : Z) : Z := Z.shiftl n 8.
Definition A_UNDERLINE : Z := Z.shiftl 1 17.

Inductive Call : Type :=
| Clear
| Addstr (y x : Z) (s : string) (attr : Z)
| Refresh
| Sleep (secs : Z).

Definition COLOR_BLACK : Z := 0.
Definition COLOR_GREEN : Z := 2.
Definition COLOR_YELLOW : Z := 3.
Definition COLOR_WHITE : Z := 7.

(** Lines 20 to 30 of [draw]: the foreground and background that
    [curses.init_pair] gives to each pair. *)
Definition init_pairs : list (Z * (Z * Z)) :=
  [(1, (20, COLOR_BLACK));
   (2, (8, 0));
   (3, (20, 234));
   (4, (COLOR_WHITE, COLOR_BLACK));
   (5, (COLOR_GREEN, COLOR_BLACK));
   (6, (19, 234));
   (7, (19, 0));
   (8, (COLOR_BLACK, COLOR_GREEN));
   (9, (COLOR_BLACK, COLOR_BLACK));
   (10, (COLOR_GREEN, COLOR_BLACK));
   (11, (COLOR_YELLOW, COLOR_BLACK))].

(** The colours of a pair. *)
Definition pair_colors (n : Z) : option (Z * Z) :=
  snd <$> List.find (fun p => fst p =? n) init_pairs.

(** The pair number and the underline bit of an attribute. *)
Definition pair_number (attr : Z) : Z := Z.land (Z.shiftr attr 8) 255.
Definition underlined (attr : Z) : bool := Z.testbit attr 17.

End Curses.
Import Curses.

(** What a computation leaves behind: the calls it made, the number of
    clock readings taken so far, and its value or the exception that
    ended it. *)
Record Out (A : Type) : Type := mkOut {
  calls : list Call;
  reads : nat;
  result : Py.Exn + A
}.
Arguments mkOut {A} _ _ _.
Arguments calls {A} _.
Arguments reads {A} _.
Arguments result {A} _.

(** A computation starts from the number of clock readings taken before it. *)
Definition M (A : Type) : Type := nat -> Out A.

Definition ret {A} (a : A) : M A := fun n => mkOut [] n (inr a).

Definition raise {A} (e : Py.Exn) : M A := fun n => mkOut [] n (inl e).

Definition bind {A B} (m : M A) (k : A -> M B) : M B :=
  fun n =>
    let o := m n in
    match result o with
    | inl e => mkOut (calls o) (reads o) (inl e)
    | inr a =>
        let o' := k a (reads o) in
        mkOut (calls o ++ calls o') (reads o') (result o')
    end.

Declare Scope py_scope.
Delimit Scope py_scope with py.
Notation "x <- m ;; k" := (bind m (fun x => k))
  (at level 100, m at next level, right associativity) : py_scope.
Notation "m ;; k" := (bind m (fun _ => k))
  (at level 100, right associativity) : py_scope.
Local Open Scope py_scope.

Definition emit (c : Call) : M unit := fun n => mkOut [c] n (inr tt).

Definition lift {A} (r : Py.Exn + A) : M A := fun n => mkOut [] n r.

(** [stdscr.clear()], [stdscr.addstr(y, x, s, attr)], [stdscr.refresh()]. *)
Definition clear : M unit := emit Clear.
Definition addstr (y x : Z) (s : string) (attr : Z) : M unit := emit (Addstr y x s attr).
Definition refresh : M unit := emit Refresh.

(** [time.sleep(secs)]: a negative length is a [ValueError]. *)
Definition sleep (secs : Z) : M unit :=
  if secs <? 0 then raise Py.ValueError else emit (Sleep secs).

(** [for x in xs: body], threading the local variables [s]. *)
Fixpoint for_each {A L} (body : A -> L -> M L) (xs : list A) (s : L) : M L :=
  match xs with
  | [] => ret s
  | x :: xs' => s' <- body x s ;; for_each body xs' s'
  end.

(** [for ii, x in enumerate(xs): body], counting from [ii]. *)
Fixpoint for_enumerate {A L} (body : nat -> A -> L -> M L)
    (ii : nat) (xs : list A) (s : L) : M L :=
  match xs with
  | [] => ret s
  | x :: xs' => s' <- body ii x s ;; for_enumerate body (S ii) xs' s'
  end.

(** ** Tasks and the schedule *)

(** [datetime.datetime] of the Python library, of which [draw] only
    formats the hour and the minute. *)
Record datetime : Type := { hour : Z; minute : Z }.

(** Two digits, padded with a zero, as [%H] and [%M] print them. *)
Definition two_digits (n : Z) : string :=
  if n <? 10 then "0" +:+ Py.str n else Py.str n.

(** [d.strftime('%H:%M')]. *)
Definition strftime_HM (d : datetime) : string :=
  two_digits (hour d) +:+ ":" +:+ two_digits (minute d).

(** Modelled from the spec: the class [ScheduledTask] of
    [taskschedule/scheduled_task.py], of which [main.py] only has the
    import. The fields are the attributes that [draw] reads, with the
    types the specification gives them; two tasks are equal when their
    fields are, as in the snapshot of primitive values that the
    specification compares between iterations. *)
Record ScheduledTask : Type := {
  task_id : Z;
  description : string;
  project : option string;
  start_time : string;
  end_ : option datetime;
  completed : bool;
  active : bool;
  glyph : string
}.

#[global] Instance datetime_eq_dec : EqDecision datetime.
Proof. solve_decision. Defined.

#[global] Instance ScheduledTask_eq_dec : EqDecision ScheduledTask.
Proof. solve_decision. Defined.

(** What one iteration of the loop obtains from its collaborators: the
    width returned by [stdscr.getmaxyx()], the result of
    [schedule.as_dict()] after [schedule.load_tasks], and the result of
    [schedule.get_column_offsets()]. *)
Record Frame : Type := {
  max_x : Z;
  as_dict : gmap nat (list ScheduledTask);
  offsets : list Z
}.

(** The local variables of the loop over the hours. *)
Record Locals : Type := {
  past_first_task : bool;
  alternate : bool;
  current_line : Z
}.

(** ** [draw] *)

Section Draw.

(** [time.localtime().tm_hour] at the first, second, ... reading. *)
Variable tm_hour : nat -> Z.

(** The methods [task.overdue()] and [task.should_be_active(next_task)]
    of [ScheduledTask], taken as they answer. *)
Variable overdue : ScheduledTask -> bool.
Variable should_be_active : ScheduledTask -> ScheduledTask -> bool.

(** The arguments of [draw] that it uses itself; [scheduled] and
    [completed] only go to [schedule.load_tasks], whose results are the
    frames. *)
Variable refresh_rate : Z.
Variable hide_empty : bool.
Variable hide_projects : bool.

Definition localtime_tm_hour : M Z :=
  fun n => mkOut [] (S n) (inr (tm_hour n)).

Definition headers : list string :=
  [""; ""; "ID"; "Time"; "Project"; "Description"].

(** Lines 98 to 114: the colour of a task row. *)
Definition row_color (task : ScheduledTask) (is_current_task alt : bool) : Z :=
  if active task then color_pair 8
  else if is_current_task then color_pair 10
  else if overdue task && negb (completed task) then color_pair 11
  else if alt then
    (if completed task then color_pair 7 else color_pair 1)
  else
    (if completed task then color_pair 6 else color_pair 3).

(** Lines 90 to 95: the look at the next task of the bucket; the
    [IndexError] of [tasks[ii + 1]] is caught. *)
Definition is_current (tasks : list ScheduledTask) (ii : nat)
    (task : ScheduledTask) : bool :=
  match tasks !! (ii + 1)%nat with
  | None => false
  | Some next_task => should_be_active task next_task
  end.

(** Lines 122 to 126. *)
Definition formatted_time (task : ScheduledTask) : string :=
  match end_ task with
  | None => start_time task
  | Some e => start_time task +:+ "-" +:+ strftime_HM e
  end.

(** Lines 68 to 87: the row of an hour without tasks. *)
Definition draw_empty_hour (f : Frame) (i : nat) (l : Locals) : M Locals :=
  if past_first_task l || negb hide_empty then
    let color := if alternate l then color_pair 1 else color_pair 3 in
    addstr (current_line l) 5 (Py.mul " " (max_x f - 5)) color ;;
    current_hour <- localtime_tm_hour ;;
    (if Z.of_nat i =? current_hour then
       addstr (current_line l) 0 (Py.str (Z.of_nat i)) (color_pair 5)
     else
       addstr (current_line l) 0 (Py.str (Z.of_nat i)) (color_pair 2)) ;;
    ret {| past_first_task := past_first_task l;
           alternate := negb (alternate l);
           current_line := current_line l + 1 |}
  else ret l.

(** Lines 128 to 136: the hour label of a task row. *)
Definition draw_hour_label (line : Z) (hour : string) : M unit :=
  current_hour <- localtime_tm_hour ;;
  if negb (String.eqb hour "") then
    match Py.int hour with
    | None => raise Py.ValueError
    | Some h =>
        if h =? current_hour then addstr line 0 hour (color_pair 5)
        else addstr line 0 hour (color_pair 2)
    end
  else ret tt.

(** Lines 141 to 160: glyph, id, time, project and description. *)
Definition draw_task_details (f : Frame) (line : Z) (task : ScheduledTask)
    (color : Z) : M unit :=
  addstr line 3 (glyph task) (color_pair 9) ;;
  (if negb (task_id task =? 0) then addstr line 5 (Py.str (task_id task)) color
   else ret tt) ;;
  o2 <- lift (Py.getitem (offsets f) 2) ;;
  addstr line o2 (formatted_time task) color ;;
  if negb hide_projects then
    let project := match project task with None => "" | Some p => p end in
    o3 <- lift (Py.getitem (offsets f) 3) ;;
    addstr line o3 project color ;;
    o4 <- lift (Py.getitem (offsets f) 4) ;;
    addstr line o4 (description task) color
  else
    o3 <- lift (Py.getitem (offsets f) 3) ;;
    addstr line o3 (description task) color.

(** Lines 89 to 163: the body of the loop over the tasks of hour [i]. *)
Definition draw_task (f : Frame) (i : nat) (tasks : list ScheduledTask)
    (ii : nat) (task : ScheduledTask) (l : Locals) : M Locals :=
  let is_current_task := is_current tasks ii task in
  let color := row_color task is_current_task (alternate l) in
  let hour := if (ii =? 0)%nat then Py.str (Z.of_nat i) else "" in
  draw_hour_label (current_line l) hour ;;
  addstr (current_line l) 5 (Py.mul " " (max_x f - 5)) color ;;
  draw_task_details f (current_line l) task color ;;
  ret {| past_first_task := true;
         alternate := negb (alternate l);
         current_line := current_line l + 1 |}.

(** Lines 65 to 163: the body of the loop over the hours. *)
Definition draw_hour (f : Frame) (i : nat) (l : Locals) : M Locals :=
  tasks <- lift (match as_dict f !! i with
                 | Some tasks => inr tasks
                 | None => inl Py.KeyError
                 end) ;;
  l' <- match tasks with
        | [] => draw_empty_hour f i l
        | _ :: _ => ret l
        end ;;
  for_enumerate (draw_task f i tasks) 0 tasks l'.

(** Lines 61 to 63. *)
Definition first_line : Locals :=
  {| past_first_task := false; alternate := true; current_line := 1 |}.

(** Lines 50 to 58: the headers. *)
Definition draw_headers (f : Frame) : M unit :=
  let color := Z.lor (color_pair 4) A_UNDERLINE in
  o1 <- lift (Py.getitem (offsets f) 1) ;;
  h2 <- lift (Py.getitem headers 2) ;;
  addstr 0 o1 h2 color ;;
  o2 <- lift (Py.getitem (offsets f) 2) ;;
  h3 <- lift (Py.getitem headers 3) ;;
  addstr 0 o2 h3 color ;;
  o3 <- lift (Py.getitem (offsets f) 3) ;;
  h4 <- lift (Py.getitem headers 4) ;;
  addstr 0 o3 h4 color ;;
  if negb hide_projects then
    o4 <- lift (Py.getitem (offsets f) 4) ;;
    h5 <- lift (Py.getitem headers 5) ;;
    addstr 0 o4 h5 color
  else ret tt.

(** Lines 35 to 166: one iteration of [while True]. [previous_as_dict]
    is [None] for the list [[]] it starts as, which no dict equals. *)
Definition tick (f : Frame)
    (previous_as_dict : option (gmap nat (list ScheduledTask)))
    : M (option (gmap nat (list ScheduledTask))) :=
  (if bool_decide (Some (as_dict f) <> previous_as_dict) then clear
   else ret tt) ;;
  let previous_as_dict := Some (as_dict f) in
  draw_headers f ;;
  for_each (draw_hour f) (seq 0 24) first_line ;;
  refresh ;;
  sleep refresh_rate ;;
  ret previous_as_dict.

(** The iterations of [while True] for which frames are given. *)
Fixpoint ticks (frames : list Frame)
    (previous_as_dict : option (gmap nat (list ScheduledTask)))
    : M (option (gmap nat (list ScheduledTask))) :=
  match frames with
  | [] => ret previous_as_dict
  | f :: frames' =>
      previous_as_dict <- tick f previous_as_dict ;;
      ticks frames' previous_as_dict
  end.

(** [draw], from line 32 on. *)
Definition draw (frames : list Frame) : M unit :=
  ticks frames None ;; ret tt.

End Draw.

(** ** [main] *)

Module Argparse.

(** The result of [parser.parse_args]. *)
Record Namespace : Type := {
  refresh : Z;
  scheduled : string;
  all : bool;
  completed : bool;
  project : bool
}.

(** The [default=] of each argument, lines 174 to 192. *)
Definition defaults : Namespace :=
  {| refresh := 1; scheduled := "today"; all := false;
     completed := true; project := false |}.

Definition set_refresh (n : Z) (ns : Namespace) : Namespace :=
  {| refresh := n; scheduled := scheduled ns; all := all ns;
     completed := completed ns; project := project ns |}.
Definition set_scheduled (s : string) (ns : Namespace) : Namespace :=
  {| refresh := refresh ns; scheduled := s; all := all ns;
     completed := completed ns; project := project ns |}.
Definition set_all (b : bool) (ns : Namespace) : Namespace :=
  {| refresh := refresh ns; scheduled := scheduled ns; all := b;
     completed := completed ns; project := project ns |}.
Definition set_completed (b : bool) (ns : Namespace) : Namespace :=
  {| refresh := refresh ns; scheduled := scheduled ns; all := all ns;
     completed := b; project := project ns |}.
Definition set_project (b : bool) (ns : Namespace) : Namespace :=
  {| refresh := refresh ns; scheduled := scheduled ns; all := all ns;
     completed := completed ns; project := b |}.

Definition is_option (tok short long : string) : bool :=
  String.eqb tok short || String.eqb tok long.

Definition starts_with_dash (s : string) : bool :=
  match s with
  | String c _ => Ascii.eqb c "-"
  | EmptyString => false
  end.

(** [parser.parse_args(argv)] for the parser of lines 171 to 192, on
    command lines where every option is one of its two option strings
    and the value of [-r] or [-s] is the token after it. [type=int]
    converts with [int]; an error exits the program. The other
    spellings that [argparse] takes (a shortened long option,
    [--refresh=5], [-r5], joined short flags) are not covered: they are
    refused here. *)
Fixpoint parse_args (argv : list string) (ns : Namespace) : Py.Exn + Namespace :=
  match argv with
  | [] => inr ns
  | tok :: rest =>
      if is_option tok "-r" "--refresh" then
        match rest with
        | v :: rest' =>
            match Py.int v with
            | Some n => parse_args rest' (set_refresh n ns)
            | None => inl Py.SystemExit
            end
        | [] => inl Py.SystemExit
        end
      else if is_option tok "-s" "--scheduled" then
        match rest with
        | v :: rest' =>
            if starts_with_dash v then inl Py.SystemExit
            else parse_args rest' (set_scheduled v ns)
        | [] => inl Py.SystemExit
        end
      else if is_option tok "-a" "--all" then parse_args rest (set_all true ns)
      else if is_option tok "-c" "--completed" then
        parse_args rest (set_completed false ns)
      else if is_option tok "-p" "--project" then
        parse_args rest (set_project true ns)
      else inl Py.SystemExit
  end.

End Argparse.

Section Main.

Variable tm_hour : nat -> Z.
Variable overdue : ScheduledTask -> bool.
Variable should_be_active : ScheduledTask -> ScheduledTask -> bool.

(** What the terminal and [schedule.load_tasks(scheduled=, completed=)]
    give, iteration by iteration. *)
Variable load_tasks : string -> bool -> list Frame.

(** Lines 193 to 197; [curses.wrapper] calls [draw] on the window. *)
Definition main (argv : list string) : M unit :=
  match Argparse.parse_args argv Argparse.defaults with
  | inl e => raise e
  | inr args =>
      let hide_empty := negb (Argparse.all args) in
      draw tm_hour overdue should_be_active
        (Argparse.refresh args) hide_empty (Argparse.project args)
        (load_tasks (Argparse.scheduled args) (Argparse.completed args))
  end.

End Main.

(** ** The vocabulary of the specification *)

(** The visual states of a task row; [NORMAL] and [COMPLETED] come in the
    two shades of the alternation flag. *)
Inductive VisualState : Type :=
| ACTIVE
| CURRENT
| OVERDUE
| NORMAL (alt : bool)
| COMPLETED (alt : bool).

(** The precedence of the specification: first match wins. *)
Definition classify (is_active is_should_be_active is_overdue is_completed alt : bool)
    : VisualState :=
  if is_active then ACTIVE
  else if is_should_be_active then CURRENT
  else if is_overdue && negb is_completed then OVERDUE
  else if is_completed then COMPLETED alt
  else NORMAL alt.

(** The colour pair that [draw] initialises for each state, lines 20 to 30. *)
Definition state_pair (s : VisualState) : Z :=
  match s with
  | ACTIVE => 8
  | CURRENT => 10
  | OVERDUE => 11
  | NORMAL true => 1
  | NORMAL false => 3
  | COMPLETED true => 7
  | COMPLETED false => 6
  end.

(** The colour of an hour number: pair 5 for the current hour, pair 2
    otherwise. *)
Definition hour_attr (i : nat) (now : Z) : Z :=
  if Z.of_nat i =? now then color_pair 5 else color_pair 2.

(** A write of an hour number: at column 0, in one of the two hour colours. *)
Definition is_hour_label (c : Call) : bool :=
  match c with
  | Addstr _ x _ a => (x =? 0) && ((a =? color_pair 5) || (a =? color_pair 2))
  | _ => false
  end.

Definition is_clear (c : Call) : bool :=
  match c with Clear => true | _ => false end.

Definition is_sleep (c : Call) : bool :=
  match c with Sleep _ => true | _ => false end.

(** The screen line a call writes to. *)
Definition line_of (c : Call) : option Z :=
  match c with Addstr y _ _ _ => Some y | _ => None end.

(** The attribute a call writes with. *)
Definition attr_of (c : Call) : option Z :=
  match c with Addstr _ _ _ a => Some a | _ => None end.

(** A frame on which [draw] raises nothing: the dict has the 24 hours
    and there are five offsets. *)
Definition frame_ok (f : Frame) : bool :=
  forallb (fun i => match as_dict f !! i with Some _ => true | None => false end)
          (seq 0 24) &&
  (5 <=? length (offsets f))%nat.

(** Some bucket among the hours [hs] holds a task. *)
Definition some_task (f : Frame) (hs : list nat) : bool :=
  existsb (fun j => match as_dict f !! j with
                    | Some (_ :: _) => true
                    | _ => false
                    end) hs.

(** Every call that [m] makes satisfies [P], also when [m] raises, and
    the value of [m], when it has one, satisfies [Q]. *)
Definition emits {A} (P : Call -> Prop) (m : M A) (Q : A -> Prop) : Prop :=
  forall n, Forall P (calls (m n)) /\ forall a, result (m n) = inr a -> Q a.

(** The local variables after [k] more rows; [seen] tells whether a task
    was among them. *)
Definition after_rows (k : nat) (seen : bool) (l : Locals) : Locals :=
  {| past_first_task := past_first_task l || seen;
     alternate := xorb (alternate l) (Nat.odd k);
     current_line := current_line l + Z.of_nat k |}.

(** The calls that write the details of a task, when the offsets of the
    time, project and description columns are [o2], [o3] and [o4]. *)
Definition detail_calls (hide_projects : bool) (o2 o3 o4 line : Z)
    (task : ScheduledTask) (time : string) (color : Z) : list Call :=
  [Addstr line 3 (glyph task) (color_pair 9)] ++
  (if task_id task =? 0 then [] else [Addstr line 5 (Py.str (task_id task)) color]) ++
  [Addstr line o2 time color] ++
  (if hide_projects then [Addstr line o3 (description task) color]
   else [Addstr line o3 (match project task with None => "" | Some p => p end) color;
         Addstr line o4 (description task) color]).

(** The calls [cs] write on the lines [a], ..., [b - 1], on each of them
    and on no other. *)
Definition covers (cs : list Call) (a b : Z) : Prop :=
  Forall (fun c => exists y, line_of c = Some y /\ a <= y < b) cs /\
  forall y, a <= y < b -> exists c, In c cs /\ line_of c = Some y.

Definition nonempty {A} (l : list A) : bool :=
  match l with [] => false | _ :: _ => true end.

(** The number of rows of an hour with the bucket [tasks]. *)
Definition hour_rows (hide_empty : bool) (l : Locals) (tasks : list ScheduledTask) : nat :=
  match tasks with
  | [] => if past_first_task l || negb hide_empty then 1%nat else 0%nat
  | _ :: _ => length tasks
  end.

(** A call of a task row: on [line], in the row colour, or the glyph in
    pair 9, or, on the first row of a bucket, the hour number at column 0
    in an hour colour. *)
Definition row_call (ii : nat) (line color : Z) (c : Call) : Prop :=
  exists x s a, c = Addstr line x s a /\
    (a = color \/ a = color_pair 9 \/
     (ii = 0%nat /\ x = 0 /\ (a = color_pair 5 \/ a = color_pair 2))).

(** [m] does not read the clock. *)
Definition steady {A} (m : M A) : Prop := forall n, reads (m n) = n.

(** The zebra striping seen on the screen: the shades of pairs 1 and 7
    are on the lines 1, 3, 5, ..., those of pairs 3 and 6 on the lines
    2, 4, 6, ... *)
Definition stripe_ok (c : Call) : Prop :=
  forall y x s a, c = Addstr y x s a ->
    (a = color_pair 1 \/ a = color_pair 7 -> Z.even (y - 1) = true) /\
    (a = color_pair 3 \/ a = color_pair 6 -> Z.even (y - 1) = false).

(** ** A day to try things on *)

Module Sample.

Definition report : ScheduledTask :=
  {| task_id := 5; description := "Write report"; project := Some "Docs";
     start_time := "09:00"; end_ := None;
     completed := false; active := false; glyph := "*" |}.

Definition standup : ScheduledTask :=
  {| task_id := 7; description := "Standup"; project := None;
     start_time := "09:30"; end_ := Some {| hour := 9; minute := 45 |};
     completed := false; active := true; glyph := "o" |}.

Definition review : ScheduledTask :=
  {| task_id := 0; description := "Review"; project := Some "Docs";
     start_time := "11:00"; end_ := Some {| hour := 12; minute := 5 |};
     completed := true; active := false; glyph := "x" |}.

(** A dict with the 24 hours, empty except for the given buckets. *)
Definition day (l : list (nat * list ScheduledTask)) : gmap nat (list ScheduledTask) :=
  list_to_map (l ++ ((fun i => (i, [])) <$> seq 0 24)).

Definition frame : Frame :=
  {| max_x := 12;
     as_dict := day [(9%nat, [report; standup]); (11%nat, [review])];
     offsets := [0; 5; 8; 20; 30] |}.

Definition quiet : Frame :=
  {| max_x := 12; as_dict := day []; offsets := [0; 5; 8; 20; 30] |}.

(** A clock that turns from 9 to 10 after its second reading. *)
Definition clock (n : nat) : Z := if (n <? 2)%nat then 9 else 10.

Definition late (t : ScheduledTask) : bool := true.
Definition before_next (t next_task : ScheduledTask) : bool := true.

End Sample.

(** A write in the colour of the current hour. *)
Definition is_highlight (c : Call) : bool :=
  match c with
  | Addstr _ _ _ a => a =? color_pair 5
  | _ => false
  end.

(** The calls that write the headers, when the offsets 1 to 4 are [o1]
    to [o4]. *)
Definition header_calls (hide_projects : bool) (o1 o2 o3 o4 : Z) : list Call :=
  [Addstr 0 o1 "ID" (Z.lor (color_pair 4) A_UNDERLINE);
   Addstr 0 o2 "Time" (Z.lor (color_pair 4) A_UNDERLINE);
   Addstr 0 o3 "Project" (Z.lor (color_pair 4) A_UNDERLINE)] ++
  (if hide_projects then []
   else [Addstr 0 o4 "Description" (Z.lor (color_pair 4) A_UNDERLINE)]).

(** The striping flag agrees with the line: set on the lines 1, 3, 5, ... *)
Definition striped (l : Locals) : Prop :=
  alternate l = Z.even (current_line l - 1).

(** The sample day drawn once: refresh 1, empty hours hidden until the
    first task, project column shown. *)
Definition sample_tick (f : Frame) (prev : option (gmap nat (list ScheduledTask)))
    (n : nat) : Out (option (gmap nat (list ScheduledTask))) :=
  tick Sample.clock Sample.late Sample.before_next 1 true false f prev n.

(** The row of a task of the nine o'clock bucket of the sample day. *)
Definition sample_row (ii : nat) (task : ScheduledTask) (l : Locals) (n : nat)
    : Out Locals :=
  draw_task Sample.clock Sample.late Sample.before_next false Sample.frame 9
    [Sample.report; Sample.standup] ii task l n.

(** ** Vocabulary for the run of the loop *)

Definition is_refresh (c : Call) : bool :=
  match c with Refresh => true | _ => false end.

(** The calls that end an iteration: [stdscr.refresh()] and [time.sleep]. *)
Definition is_pause (c : Call) : bool := is_refresh c || is_sleep c.


Definition column_of (c : Call) : option Z :=
  match c with Addstr _ x _ _ => Some x | _ => None end.


(** The number of dicts in [ds] that differ from the one before them,
    [prev] being before the first. *)
Fixpoint changes (prev : option (gmap nat (list ScheduledTask)))
    (ds : list (gmap nat (list ScheduledTask))) : nat :=
  match ds with
  | [] => 0%nat
  | d :: ds' =>
      ((if bool_decide (Some d <> prev) then 1 else 0) + changes (Some d) ds')%nat
  end.






(** A write at column [x]. *)
Definition is_at_column (x : Z) (c : Call) : bool :=
  match c with
  | Addstr _ x' _ _ => x' =? x
  | _ => false
  end.

(** Frames on which an iteration fails: a dict that stops after hour 9,
    and a list of three offsets. *)
Definition sample_missing_hour : Frame :=
  {| max_x := 12;
     as_dict := list_to_map ((9%nat, [Sample.report]) :: ((fun i => (i, [])) <$> seq 0 9));
     offsets := [0; 5; 8; 20; 30] |}.

Definition sample_short_offsets : Frame :=
  {| max_x := 12; as_dict := as_dict Sample.frame; offsets := [0; 5; 8] |}.

(** The sample frame with another offset 0 and one offset more. *)
Definition sample_other_offsets : Frame :=
  {| max_x := 12; as_dict := as_dict Sample.frame; offsets := [99; 5; 8; 20; 30; 77] |}.

(** [draw] on the sample day: refresh [r], empty hours hidden, project
    column shown. *)
Definition sample_draw (r : Z) (frames : list Frame) (n : nat) : Out unit :=
  draw Sample.clock Sample.late Sample.before_next r true false frames n.

Lemma pos_to_uint_nonnil (p : positive) : Pos.to_uint p <> Decimal.Nil.
Proof.
  intros H. pose proof (DecimalPos.Unsigned.of_to p) as E.
  rewrite H in E. discriminate E.
Qed.

Lemma int_str (n : Z) : Py.int (Py.str n) = Some n.
Proof.
  unfold Py.int, Py.str.
  rewrite NilZero.isi.
  - simpl. f_equal. apply DecimalZ.of_to.
  - destruct n; simpl; try discriminate.
    intros H. injection H. apply pos_to_uint_nonnil.
  - destruct n; simpl; try discriminate.
    intros H. injection H. apply pos_to_uint_nonnil.
Qed.

Lemma str_nonempty (n : Z) : Py.str n <> "".
Proof.
  intros H. pose proof (int_str n) as E. rewrite H in E. discriminate E.
Qed.

(** ** Running computations *)

Lemma out_eta {A} (o : Out A) : o = mkOut (calls o) (reads o) (result o).
Proof. destruct o; reflexivity. Qed.

Lemma bind_ok {A B} (m : M A) (k : A -> M B) n cs r a :
  m n = mkOut cs r (inr a) ->
  bind m k n = mkOut (cs ++ calls (k a r)) (reads (k a r)) (result (k a r)).
Proof. intros E. unfold bind. rewrite E. reflexivity. Qed.

Lemma bind_raise {A B} (m : M A) (k : A -> M B) n cs r e :
  m n = mkOut cs r (inl e) -> bind m k n = mkOut cs r (inl e).
Proof. intros E. unfold bind. rewrite E. reflexivity. Qed.

Lemma bind_lift {A B} (a : A) (k : A -> M B) n : bind (lift (inr a)) k n = k a n.
Proof. unfold bind, lift. simpl. symmetry. apply out_eta. Qed.

Lemma bind_ret_l {A B} (a : A) (k : A -> M B) n : bind (ret a) k n = k a n.
Proof. unfold bind, ret. simpl. symmetry. apply out_eta. Qed.

Lemma bind_ret_r {A} (m : M A) n : bind m (fun a => ret a) n = m n.
Proof.
  unfold bind, ret. destruct (m n) as [cs r [e|a]]; simpl; [reflexivity|].
  rewrite app_nil_r. reflexivity.
Qed.

Lemma bind_emit {B} c (k : unit -> M B) n :
  bind (emit c) k n = mkOut (c :: calls (k tt n)) (reads (k tt n)) (result (k tt n)).
Proof. reflexivity. Qed.

Lemma for_each_app {A L} (body : A -> L -> M L) xs ys s n :
  for_each body (xs ++ ys) s n = bind (for_each body xs s) (for_each body ys) n.
Proof.
  revert s n. induction xs as [|x xs IH]; intros s n; simpl.
  - unfold bind, ret; simpl. apply out_eta.
  - unfold bind. destruct (body x s n) as [cs r [e|s']]; simpl.
    + reflexivity.
    + rewrite IH. unfold bind.
      destruct (for_each body xs s' r) as [cs1 r1 [e1|s1]]; simpl.
      * reflexivity.
      * rewrite app_assoc. reflexivity.
Qed.

(** ** What a computation can emit *)

Section Emits.

Context {A : Type} (P : Call -> Prop).

Lemma emits_ret (a : A) (Q : A -> Prop) : Q a -> emits P (ret a) Q.
Proof.
  intros H n. split; [constructor|].
  simpl. intros b E. injection E as <-. exact H.
Qed.

Lemma emits_raise e (Q : A -> Prop) : emits P (raise e) Q.
Proof. intros n. split; [constructor|]. simpl. discriminate. Qed.

Lemma emits_lift (r : Py.Exn + A) (Q : A -> Prop) :
  (forall a, r = inr a -> Q a) -> emits P (lift r) Q.
Proof. intros H n. split; [constructor|]. simpl. exact H. Qed.

Lemma emits_bind {B} (m : M B) (k : B -> M A) (R : B -> Prop) (Q : A -> Prop) :
  emits P m R -> (forall b, R b -> emits P (k b) Q) -> emits P (bind m k) Q.
Proof.
  intros Hm Hk n. unfold bind. destruct (Hm n) as [Hc Hr].
  destruct (result (m n)) as [e|b]; simpl.
  - split; [exact Hc | discriminate].
  - destruct (Hk b (Hr b eq_refl) (reads (m n))) as [Hc' Hr'].
    split; [apply Forall_app; split; assumption | exact Hr'].
Qed.

Lemma emits_then {B} (m : M B) (k : B -> M A) (Q : A -> Prop) :
  emits P m (fun _ => True) -> (forall b, emits P (k b) Q) -> emits P (bind m k) Q.
Proof. intros Hm Hk. eapply emits_bind; [exact Hm | intros b _; apply Hk]. Qed.

Lemma emits_weaken (P' : Call -> Prop) (Q Q' : A -> Prop) (m : M A) :
  (forall c, P' c -> P c) -> (forall a, Q' a -> Q a) ->
  emits P' m Q' -> emits P m Q.
Proof.
  intros HP HQ Hm n. destruct (Hm n) as [Hc Hr]. split.
  - eapply Forall_impl; [exact Hc | exact HP].
  - intros a E. apply HQ, Hr, E.
Qed.

End Emits.

Lemma emits_emit P c (Q : unit -> Prop) : P c -> Q tt -> emits P (emit c) Q.
Proof.
  intros H HQ n. split.
  - simpl. constructor; [exact H | constructor].
  - simpl. intros [] _. exact HQ.
Qed.

Lemma emits_for_each {A L} P (I : L -> Prop) (body : A -> L -> M L) xs :
  (forall x s, I s -> emits P (body x s) I) ->
  forall s, I s -> emits P (for_each body xs s) I.
Proof.
  intros Hb. induction xs as [|x xs IH]; intros s Hs; simpl.
  - apply emits_ret, Hs.
  - eapply emits_bind; [apply Hb, Hs | exact IH].
Qed.

Lemma emits_for_enumerate {A L} P (I : L -> Prop) (body : nat -> A -> L -> M L) xs :
  forall ii, (forall k x s, (ii <= k)%nat -> I s -> emits P (body k x s) I) ->
  forall s, I s -> emits P (for_enumerate body ii xs s) I.
Proof.
  induction xs as [|x xs IH]; intros ii Hb s Hs; simpl.
  - apply emits_ret, Hs.
  - eapply emits_bind; [apply Hb; [lia | exact Hs] |].
    intros s' Hs'. apply IH; [|exact Hs'].
    intros k y t Hk. apply Hb. lia.
Qed.

Ltac emits_step :=
  first
    [ apply emits_ret | apply emits_raise | apply emits_lift; intros ? ?
    | apply emits_then; [|intros ?]
    | apply emits_emit
    | match goal with
      | |- emits _ (if ?b then _ else _) _ => destruct b
      | |- emits _ (match ?x with _ => _ end) _ => destruct x
      end ].

Ltac emits_auto := repeat emits_step.

(** ** Computations that leave the clock alone *)

Lemma steady_ret {A} (a : A) : steady (ret a).
Proof. intros n. reflexivity. Qed.

Lemma steady_raise {A} e : steady (@raise A e).
Proof. intros n. reflexivity. Qed.

Lemma steady_lift {A} (r : Py.Exn + A) : steady (lift r).
Proof. intros n. reflexivity. Qed.

Lemma steady_emit c : steady (emit c).
Proof. intros n. reflexivity. Qed.

Lemma steady_bind {A B} (m : M A) (k : A -> M B) :
  steady m -> (forall a, steady (k a)) -> steady (bind m k).
Proof.
  intros Hm Hk n. unfold bind. specialize (Hm n).
  destruct (result (m n)) as [e|a]; simpl; [exact Hm|].
  rewrite Hm. apply Hk.
Qed.

Ltac steady_step :=
  first
    [ apply steady_ret | apply steady_raise | apply steady_lift | apply steady_emit
    | apply steady_bind; [|intros ?]
    | match goal with
      | |- steady (if ?b then _ else _) => destruct b
      | |- steady (match ?x with _ => _ end) => destruct x
      end ].

Ltac steady_auto := repeat steady_step.

(** ** Rows and lines *)

Lemma after_rows_0 l : after_rows 0 false l = l.
Proof.
  destruct l as [p a c]. unfold after_rows. simpl.
  rewrite orb_false_r, xorb_false_r, Z.add_0_r. reflexivity.
Qed.

Lemma after_rows_comp k1 k2 s1 s2 l :
  after_rows k2 s2 (after_rows k1 s1 l) = after_rows (k1 + k2) (s1 || s2) l.
Proof.
  unfold after_rows. simpl. f_equal.
  - rewrite orb_assoc. reflexivity.
  - rewrite Nat.odd_add, xorb_assoc. reflexivity.
  - lia.
Qed.

Lemma covers_nil a : covers [] a a.
Proof. split; [constructor | intros y Hy; lia]. Qed.

Lemma covers_app cs1 cs2 a b c :
  a <= b -> b <= c -> covers cs1 a b -> covers cs2 b c -> covers (cs1 ++ cs2) a c.
Proof.
  intros Hab Hbc [F1 C1] [F2 C2]. split.
  - apply Forall_app. split.
    + eapply Forall_impl; [exact F1|]. intros x (y & E & Hy). exists y. split; [exact E | lia].
    + eapply Forall_impl; [exact F2|]. intros x (y & E & Hy). exists y. split; [exact E | lia].
  - intros y Hy. destruct (Z_lt_le_dec y b) as [Hlt|Hge].
    + destruct (C1 y) as (x & Hin & E); [lia|]. exists x. split; [|exact E].
      apply in_or_app. left. exact Hin.
    + destruct (C2 y) as (x & Hin & E); [lia|]. exists x. split; [|exact E].
      apply in_or_app. right. exact Hin.
Qed.

Lemma covers_row cs a :
  cs <> [] -> Forall (fun c => line_of c = Some a) cs -> covers cs a (a + 1).
Proof.
  intros Hne F. split.
  - eapply Forall_impl; [exact F|]. intros c E. exists a. split; [exact E | lia].
  - intros y Hy. assert (y = a) as -> by lia.
    destruct cs as [|c cs]; [congruence|]. exists c. split; [left; reflexivity|].
    inversion F; assumption.
Qed.

Lemma offsets_lookup (f : Frame) :
  (5 <= length (offsets f))%nat ->
  exists o2 o3 o4, offsets f !! 2%nat = Some o2 /\ offsets f !! 3%nat = Some o3 /\
                   offsets f !! 4%nat = Some o4.
Proof.
  intros H.
  destruct (lookup_lt_is_Some_2 (offsets f) 2%nat) as [o2 E2]; [lia|].
  destruct (lookup_lt_is_Some_2 (offsets f) 3%nat) as [o3 E3]; [lia|].
  destruct (lookup_lt_is_Some_2 (offsets f) 4%nat) as [o4 E4]; [lia|].
  exists o2, o3, o4. auto.
Qed.

Lemma detail_calls_line hp o2 o3 o4 line task time color :
  Forall (fun c => line_of c = Some line)
         (detail_calls hp o2 o3 o4 line task time color).
Proof.
  unfold detail_calls.
  destruct (task_id task =? 0), hp; simpl; repeat constructor.
Qed.

(** ** The pieces of [draw] *)

Section DrawFacts.

Variable tm_hour : nat -> Z.
Variable overdue : ScheduledTask -> bool.
Variable should_be_active : ScheduledTask -> ScheduledTask -> bool.
Variable refresh_rate : Z.
Variable hide_empty : bool.
Variable hide_projects : bool.

Lemma draw_hour_label_first line i n :
  draw_hour_label tm_hour line (Py.str (Z.of_nat i)) n =
  mkOut [Addstr line 0 (Py.str (Z.of_nat i)) (hour_attr i (tm_hour n))]
        (S n) (inr tt).
Proof.
  unfold draw_hour_label, bind, localtime_tm_hour. simpl.
  destruct (String.eqb_spec (Py.str (Z.of_nat i)) "") as [E|_].
  - destruct (str_nonempty _ E).
  - simpl. rewrite int_str. unfold hour_attr.
    destruct (Z.of_nat i =? tm_hour n); reflexivity.
Qed.

Lemma draw_hour_label_blank line n :
  draw_hour_label tm_hour line "" n = mkOut [] (S n) (inr tt).
Proof. reflexivity. Qed.

Lemma draw_task_details_run f line task color n o2 o3 o4 :
  offsets f !! 2%nat = Some o2 ->
  offsets f !! 3%nat = Some o3 ->
  offsets f !! 4%nat = Some o4 ->
  draw_task_details hide_projects f line task color n =
  mkOut (detail_calls hide_projects o2 o3 o4 line task
           (formatted_time task) color) n (inr tt).
Proof.
  intros E2 E3 E4.
  unfold draw_task_details, detail_calls, bind, addstr, emit, lift, Py.getitem, ret.
  simpl. rewrite E2, E3, E4.
  destruct (task_id task =? 0), hide_projects; reflexivity.
Qed.

Lemma draw_task_run f i tasks ii task l n o2 o3 o4 :
  offsets f !! 2%nat = Some o2 ->
  offsets f !! 3%nat = Some o3 ->
  offsets f !! 4%nat = Some o4 ->
  draw_task tm_hour overdue should_be_active hide_projects f i tasks ii task l n =
  mkOut
    ((if (ii =? 0)%nat
      then [Addstr (current_line l) 0 (Py.str (Z.of_nat i)) (hour_attr i (tm_hour n))]
      else []) ++
     Addstr (current_line l) 5 (Py.mul " " (max_x f - 5))
       (row_color overdue task (is_current should_be_active tasks ii task)
          (alternate l)) ::
     detail_calls hide_projects o2 o3 o4 (current_line l) task
       (formatted_time task)
       (row_color overdue task (is_current should_be_active tasks ii task)
          (alternate l)))
    (S n)
    (inr (after_rows 1 true l)).
Proof.
  intros E2 E3 E4. unfold draw_task.
  set (color := row_color _ _ _ _).
  pose proof (draw_task_details_run f (current_line l) task color) as D.
  destruct (ii =? 0)%nat.
  - erewrite bind_ok; [|apply draw_hour_label_first].
    unfold bind, addstr, emit. cbn [calls reads result].
    rewrite (D (S n) o2 o3 o4 E2 E3 E4). simpl.
    unfold after_rows. simpl. rewrite orb_true_r, xorb_true_r.
    rewrite app_nil_r. reflexivity.
  - erewrite bind_ok; [|apply draw_hour_label_blank].
    unfold bind, addstr, emit. cbn [calls reads result].
    rewrite (D (S n) o2 o3 o4 E2 E3 E4). simpl.
    unfold after_rows. simpl. rewrite orb_true_r, xorb_true_r.
    rewrite app_nil_r. reflexivity.
Qed.

Lemma draw_empty_hour_run f i l n :
  draw_empty_hour tm_hour hide_empty f i l n =
  if past_first_task l || negb hide_empty then
    mkOut [Addstr (current_line l) 5 (Py.mul " " (max_x f - 5))
             (if alternate l then color_pair 1 else color_pair 3);
           Addstr (current_line l) 0 (Py.str (Z.of_nat i)) (hour_attr i (tm_hour n))]
          (S n) (inr (after_rows 1 false l))
  else mkOut [] n (inr l).
Proof.
  unfold draw_empty_hour. destruct (past_first_task l || negb hide_empty); [|reflexivity].
  unfold bind, addstr, emit, localtime_tm_hour, hour_attr, after_rows. simpl.
  rewrite orb_false_r, xorb_true_r.
  destruct (Z.of_nat i =? tm_hour n); reflexivity.
Qed.

Lemma bucket_run f i tasks o2 o3 o4 :
  offsets f !! 2%nat = Some o2 ->
  offsets f !! 3%nat = Some o3 ->
  offsets f !! 4%nat = Some o4 ->
  forall ts ii l n,
  exists cs,
    for_enumerate
      (draw_task tm_hour overdue should_be_active hide_projects f i tasks)
      ii ts l n =
    mkOut cs (n + length ts) (inr (after_rows (length ts) (nonempty ts) l)) /\
    covers cs (current_line l) (current_line l + Z.of_nat (length ts)).
Proof.
  intros E2 E3 E4. induction ts as [|t ts IH]; intros ii l n.
  - exists []. simpl. unfold ret. rewrite after_rows_0, Nat.add_0_r, Z.add_0_r.
    split; [reflexivity | apply covers_nil].
  - simpl for_enumerate.
    erewrite bind_ok; [|apply (draw_task_run f i tasks ii t l n o2 o3 o4 E2 E3 E4)].
    destruct (IH (S ii) (after_rows 1 true l) (S n)) as (cs & E & C).
    rewrite E. cbn [calls reads result]. eexists. split.
    + rewrite after_rows_comp.
      replace (n + length (t :: ts))%nat with (S n + length ts)%nat by (simpl; lia).
      reflexivity.
    + replace (current_line l + Z.of_nat (length (t :: ts)))
        with (current_line l + 1 + Z.of_nat (length ts)) by (simpl length; lia).
      apply (covers_app _ _ _ (current_line l + 1)); [lia | lia | | exact C].
      apply covers_row.
      * destruct (ii =? 0)%nat; discriminate.
      * apply Forall_app. split.
        -- destruct (ii =? 0)%nat; repeat constructor.
        -- constructor; [reflexivity | apply detail_calls_line].
Qed.

Lemma draw_hour_run f i tasks l n o2 o3 o4 :
  offsets f !! 2%nat = Some o2 ->
  offsets f !! 3%nat = Some o3 ->
  offsets f !! 4%nat = Some o4 ->
  as_dict f !! i = Some tasks ->
  exists cs,
    draw_hour tm_hour overdue should_be_active hide_empty hide_projects f i l n =
    mkOut cs (n + hour_rows hide_empty l tasks)
          (inr (after_rows (hour_rows hide_empty l tasks) (nonempty tasks) l)) /\
    covers cs (current_line l)
           (current_line l + Z.of_nat (hour_rows hide_empty l tasks)).
Proof.
  intros E2 E3 E4 Et. unfold draw_hour. rewrite Et, bind_lift.
  destruct tasks as [|t ts].
  - cbn [for_enumerate]. rewrite bind_ret_r.
    rewrite draw_empty_hour_run. unfold hour_rows.
    destruct (past_first_task l || negb hide_empty); simpl.
    + eexists. split; [rewrite Nat.add_1_r; reflexivity|].
      apply covers_row; [discriminate | repeat constructor].
    + exists []. rewrite after_rows_0, Nat.add_0_r, Z.add_0_r.
      split; [reflexivity | apply covers_nil].
  - rewrite bind_ret_l.
    destruct (bucket_run f i (t :: ts) o2 o3 o4 E2 E3 E4 (t :: ts) 0%nat l n)
      as (cs & E & C).
    rewrite E. exists cs. split; [reflexivity | exact C].
Qed.

Lemma hours_run f o2 o3 o4 :
  offsets f !! 2%nat = Some o2 ->
  offsets f !! 3%nat = Some o3 ->
  offsets f !! 4%nat = Some o4 ->
  forall hs l n,
  Forall (fun i => is_Some (as_dict f !! i)) hs ->
  exists k cs,
    for_each
      (draw_hour tm_hour overdue should_be_active hide_empty hide_projects f)
      hs l n =
    mkOut cs (n + k) (inr (after_rows k (some_task f hs) l)) /\
    covers cs (current_line l) (current_line l + Z.of_nat k).
Proof.
  intros E2 E3 E4. induction hs as [|i hs IH]; intros l n Hk.
  - exists 0%nat, []. simpl. unfold ret.
    rewrite after_rows_0, Nat.add_0_r, Z.add_0_r.
    split; [reflexivity | apply covers_nil].
  - inversion Hk as [|? ? [tasks Et] Hk']; subst.
    destruct (draw_hour_run f i tasks l n o2 o3 o4 E2 E3 E4 Et) as (cs1 & E1 & C1).
    simpl for_each. erewrite bind_ok; [|exact E1].
    destruct (IH (after_rows (hour_rows hide_empty l tasks) (nonempty tasks) l)
                 (n + hour_rows hide_empty l tasks)%nat Hk') as (k2 & cs2 & E & C).
    rewrite E. cbn [calls reads result].
    exists (hour_rows hide_empty l tasks + k2)%nat, (cs1 ++ cs2). split.
    + rewrite after_rows_comp, Nat.add_assoc.
      assert (some_task f (i :: hs) = nonempty tasks || some_task f hs) as ->
        by (simpl; rewrite Et; destruct tasks; reflexivity).
      reflexivity.
    + rewrite Nat2Z.inj_add, Z.add_assoc.
      apply (covers_app _ _ _ (current_line l + Z.of_nat (hour_rows hide_empty l tasks)));
        [lia | lia | exact C1 | exact C].
Qed.

Lemma emits_localtime {P} (Q : Z -> Prop) :
  (forall z, Q z) -> emits P (localtime_tm_hour tm_hour) Q.
Proof.
  intros H n. split; [constructor|]. simpl. intros a _. apply H.
Qed.

Lemma draw_task_details_emits f line task color ii :
  emits (row_call ii line color)
        (draw_task_details hide_projects f line task color) (fun _ => True).
Proof.
  unfold draw_task_details, addstr.
  emits_auto; try exact I; do 3 eexists; (split; [reflexivity | auto]).
Qed.

Lemma draw_hour_label_emits line hour color ii :
  (ii <> 0%nat -> hour = "") ->
  emits (row_call ii line color) (draw_hour_label tm_hour line hour) (fun _ => True).
Proof.
  intros H. unfold draw_hour_label, addstr.
  apply emits_then; [apply emits_localtime; auto | intros current_hour].
  destruct (String.eqb_spec hour "") as [E|E]; simpl; [apply emits_ret; exact I|].
  assert (ii = 0%nat) as -> by (destruct ii; [reflexivity | destruct E; auto]).
  emits_auto; try exact I; do 3 eexists; (split; [reflexivity | auto 6]).
Qed.

Lemma draw_task_emits f i tasks ii task l :
  emits
    (row_call ii (current_line l)
       (row_color overdue task (is_current should_be_active tasks ii task)
          (alternate l)))
    (draw_task tm_hour overdue should_be_active hide_projects f i tasks ii task l)
    (fun l' => l' = after_rows 1 true l).
Proof.
  unfold draw_task.
  apply emits_then.
  { apply draw_hour_label_emits. intros Hii.
    destruct ii; [congruence | reflexivity]. }
  intros _. apply emits_then.
  { unfold addstr. apply emits_emit; [|exact I].
    do 3 eexists. split; [reflexivity | auto]. }
  intros _. apply emits_then; [apply draw_task_details_emits|].
  intros _. apply emits_ret.
  unfold after_rows. simpl. rewrite orb_true_r, xorb_true_r. reflexivity.
Qed.

End DrawFacts.

(** ** Colours *)

Lemma row_color_classify overdue task cur alt :
  row_color overdue task cur alt =
  color_pair (state_pair (classify (active task) cur (overdue task) (completed task) alt)).
Proof.
  unfold row_color, classify.
  destruct (active task), cur, (overdue task), (completed task), alt; reflexivity.
Qed.

Lemma state_color_inj s s' :
  color_pair (state_pair s) = color_pair (state_pair s') -> s = s'.
Proof.
  destruct s as [| | |[]|[]], s' as [| | |[]|[]]; intros H;
    first [reflexivity | vm_compute in H; discriminate H].
Qed.


Lemma state_color_not_hour s :
  color_pair (state_pair s) <> color_pair 5 /\ color_pair (state_pair s) <> color_pair 2 /\
  color_pair (state_pair s) <> color_pair 9.
Proof. destruct s as [| | |[]|[]]; repeat split; intros H; vm_compute in H; discriminate H. Qed.

Lemma row_call_not_label ii line s c :
  ii <> 0%nat -> row_call ii line (color_pair (state_pair s)) c -> is_hour_label c = false.
Proof.
  intros Hii (x & t & a & -> & H). simpl.
  destruct (state_color_not_hour s) as (H5 & H2 & _).
  destruct H as [->|[->|(E & _)]]; [| |congruence].
  - destruct (Z.eqb_spec (color_pair (state_pair s)) (color_pair 5)); [congruence|].
    destruct (Z.eqb_spec (color_pair (state_pair s)) (color_pair 2)); [congruence|].
    apply andb_false_r.
  - apply andb_false_r.
Qed.

Lemma filter_none {A} (p : A -> bool) l :
  Forall (fun x => p x = false) l -> List.filter p l = [].
Proof.
  induction 1 as [|x l Hx _ IH]; [reflexivity|]. simpl. rewrite Hx. exact IH.
Qed.

Lemma hour_attr_label line i now :
  is_hour_label (Addstr line 0 (Py.str (Z.of_nat i)) (hour_attr i now)) = true.
Proof. unfold hour_attr. destruct (Z.of_nat i =? now); reflexivity. Qed.

Lemma two_digits_shape (k : nat) :
  (k < 60)%nat ->
  (exists a b, two_digits (Z.of_nat k) = String a (String b "")) /\
  Py.int (two_digits (Z.of_nat k)) = Some (Z.of_nat k).
Proof.
  intros H.
  do 60 (destruct k as [|k]; [split; [do 2 eexists|]; vm_compute; reflexivity|]).
  lia.
Qed.

(** ** The rows of the tasks *)

Section Rows.

Variable tm_hour : nat -> Z.
Variable overdue : ScheduledTask -> bool.
Variable should_be_active : ScheduledTask -> ScheduledTask -> bool.
Variable hide_projects : bool.

(** The calls of a task row after its hour label. *)
Lemma draw_task_calls f i tasks ii task l n :
  exists rest,
    calls (draw_task tm_hour overdue should_be_active hide_projects
             f i tasks ii task l n) =
    (if (ii =? 0)%nat
     then [Addstr (current_line l) 0 (Py.str (Z.of_nat i)) (hour_attr i (tm_hour n))]
     else []) ++
    Addstr (current_line l) 5 (Py.mul " " (max_x f - 5))
      (row_color overdue task (is_current should_be_active tasks ii task)
         (alternate l)) :: rest /\
    Forall (row_call 1 (current_line l)
              (row_color overdue task (is_current should_be_active tasks ii task)
                 (alternate l))) rest /\
    reads (draw_task tm_hour overdue should_be_active hide_projects
             f i tasks ii task l n) = S n.
Proof.
  unfold draw_task.
  set (color := row_color _ _ _ _).
  set (k := fun _ : unit => bind (draw_task_details hide_projects f (current_line l) task color) _).
  assert (K : exists rest,
             calls (bind (addstr (current_line l) 5 (Py.mul " " (max_x f - 5)) color) k (S n))
             = Addstr (current_line l) 5 (Py.mul " " (max_x f - 5)) color :: rest /\
             Forall (row_call 1 (current_line l) color) rest /\
             reads (bind (addstr (current_line l) 5 (Py.mul " " (max_x f - 5)) color) k (S n))
             = S n).
  { unfold bind, addstr, emit. cbn [calls reads result].
    assert (E : emits (row_call 1 (current_line l) color) (k tt) (fun _ => True)).
    { unfold k. apply emits_then; [apply draw_task_details_emits|].
      intros _. apply emits_ret. exact I. }
    assert (R : reads (k tt (S n)) = S n).
    { assert (St : steady (k tt)); [|apply St].
      unfold k, draw_task_details, addstr. steady_auto. }
    destruct (result (k tt (S n))); cbn [calls reads]; eexists;
      (split; [reflexivity | split; [apply E | exact R]]). }
  destruct K as (rest & Ec & Fr & Er). exists rest.
  destruct (ii =? 0)%nat.
  - erewrite bind_ok; [|apply draw_hour_label_first].
    cbn [calls reads]. rewrite Ec. auto.
  - erewrite bind_ok; [|apply draw_hour_label_blank].
    cbn [calls reads]. rewrite Ec. auto.
Qed.

End Rows.

Lemma frame_ok_hours f i :
  frame_ok f = true -> (i < 24)%nat -> is_Some (as_dict f !! i).
Proof.
  unfold frame_ok. intros H Hi. apply andb_prop in H as [H _].
  rewrite forallb_forall in H. specialize (H i).
  destruct (as_dict f !! i); [eauto|].
  discriminate H. apply in_seq. lia.
Qed.

Lemma frame_ok_offsets f :
  frame_ok f = true ->
  exists o1 o2 o3 o4,
    offsets f !! 1%nat = Some o1 /\ offsets f !! 2%nat = Some o2 /\
    offsets f !! 3%nat = Some o3 /\ offsets f !! 4%nat = Some o4.
Proof.
  unfold frame_ok. intros H. apply andb_prop in H as [_ H].
  apply Nat.leb_le in H.
  destruct (lookup_lt_is_Some_2 (offsets f) 1%nat) as [o1 E1]; [lia|].
  destruct (offsets_lookup f H) as (o2 & o3 & o4 & E2 & E3 & E4).
  exists o1, o2, o3, o4. auto.
Qed.

Lemma in_bind_l {A B} (m : M A) (k : A -> M B) n c :
  In c (calls (m n)) -> In c (calls (bind m k n)).
Proof.
  intros H. unfold bind. destruct (result (m n)); simpl; [exact H|].
  apply in_or_app. left. exact H.
Qed.

Lemma in_bind_r {A B} (m : M A) (k : A -> M B) n cs r a c :
  m n = mkOut cs r (inr a) -> In c (calls (k a r)) -> In c (calls (bind m k n)).
Proof.
  intros E H. rewrite (bind_ok m k n cs r a E). simpl.
  apply in_or_app. right. exact H.
Qed.

(** ** The claims about one row *)

Section RowClaims.

Variable tm_hour : nat -> Z.
Variable overdue : ScheduledTask -> bool.
Variable should_be_active : ScheduledTask -> ScheduledTask -> bool.
Variable hide_empty : bool.
Variable hide_projects : bool.


(** C9: the last task of a bucket is never CURRENT: its state is not
    CURRENT, no call of its row is in the colour of CURRENT, and the row
    is the same whatever [should_be_active] answers. *)
Theorem last_task_never_current f i tasks ii task l n :
  length tasks = S ii ->
  classify (active task) (is_current should_be_active tasks ii task)
           (overdue task) (completed task) (alternate l) <> CURRENT /\
  Forall (fun c => attr_of c <> Some (color_pair 10))
         (calls (draw_task tm_hour overdue should_be_active hide_projects
                   f i tasks ii task l n)) /\
  forall other : ScheduledTask -> ScheduledTask -> bool,
    draw_task tm_hour overdue other hide_projects f i tasks ii task l n =
    draw_task tm_hour overdue should_be_active hide_projects f i tasks ii task l n.
Proof.
  intros Hlen.
  assert (Hnext : tasks !! (ii + 1)%nat = None) by (apply lookup_ge_None_2; lia).
  assert (Hcur : forall sba, is_current sba tasks ii task = false).
  { intros sba. unfold is_current. rewrite Hnext. reflexivity. }
  assert (Hst : classify (active task) false (overdue task) (completed task)
                  (alternate l) <> CURRENT).
  { unfold classify.
    destruct (active task), (overdue task), (completed task); discriminate. }
  split; [rewrite Hcur; exact Hst | split].
  - eapply Forall_impl; [apply draw_task_emits|].
    intros c (x & s & a & -> & H). simpl. intros E. injection E as E.
    rewrite Hcur, row_color_classify in H.
    destruct H as [->|[->|(_ & _ & [->| ->])]];
      try (vm_compute in E; discriminate E).
    apply (state_color_inj _ CURRENT) in E. exact (Hst E).
  - intros other. unfold draw_task. rewrite !Hcur. reflexivity.
Qed.

(** C10: in a bucket with tasks the hour number is written once, on the
    line of the first task; the rows of the later tasks hold no write of
    an hour number, and the empty label writes nothing. *)
Theorem hour_label_first_row_only f i t ts l n :
  as_dict f !! i = Some (t :: ts) ->
  List.filter is_hour_label
    (calls (draw_hour tm_hour overdue should_be_active hide_empty hide_projects
              f i l n)) =
  [Addstr (current_line l) 0 (Py.str (Z.of_nat i)) (hour_attr i (tm_hour n))] /\
  (forall ii task l' n',
     Forall (fun c => is_hour_label c = false)
            (calls (draw_task tm_hour overdue should_be_active hide_projects
                      f i (t :: ts) (S ii) task l' n'))) /\
  (forall line n', calls (draw_hour_label tm_hour line "" n') = []).
Proof.
  intros Et.
  assert (Later : forall ii task l',
            emits (fun c => is_hour_label c = false)
                  (draw_task tm_hour overdue should_be_active hide_projects
                     f i (t :: ts) (S ii) task l') (fun _ => True)).
  { intros ii task l'.
    eapply emits_weaken; [| |apply draw_task_emits]; [|auto].
    intros c H. rewrite row_color_classify in H.
    eapply row_call_not_label; [|exact H]. discriminate. }
  split; [|split].
  - unfold draw_hour. rewrite Et, bind_lift, bind_ret_l. simpl for_enumerate.
    destruct (draw_task_calls tm_hour overdue should_be_active hide_projects
                f i (t :: ts) 0 t l n) as (rest & E & Fr & _).
    simpl in E.
    assert (Hrow : List.filter is_hour_label
              (calls (draw_task tm_hour overdue should_be_active hide_projects
                        f i (t :: ts) 0 t l n)) =
            [Addstr (current_line l) 0 (Py.str (Z.of_nat i)) (hour_attr i (tm_hour n))]).
    { rewrite E. cbn [List.filter]. rewrite hour_attr_label.
      simpl. f_equal. apply filter_none.
      eapply Forall_impl; [exact Fr|]. intros c H.
      rewrite row_color_classify in H.
      eapply row_call_not_label; [|exact H]. discriminate. }
    unfold bind.
    destruct (result (draw_task tm_hour overdue should_be_active hide_projects
                        f i (t :: ts) 0 t l n)) as [e|l1]; cbn [calls].
    + exact Hrow.
    + rewrite List.filter_app, Hrow. simpl. f_equal. apply filter_none.
      apply (emits_for_enumerate (fun c => is_hour_label c = false)
               (fun _ => True)); [|exact I].
      intros k x s Hk _. destruct k as [|k]; [lia|]. apply Later.
  - intros ii task l' n'. apply Later.
  - intros line n'. reflexivity.
Qed.

End RowClaims.

Lemma strftime_HM_shape (e : datetime) :
  0 <= hour e < 24 -> 0 <= minute e < 60 ->
  exists h1 h2 m1 m2,
    strftime_HM e = String h1 (String h2 (String ":" (String m1 (String m2 "")))) /\
    Py.int (String h1 (String h2 "")) = Some (hour e) /\
    Py.int (String m1 (String m2 "")) = Some (minute e).
Proof.
  intros Hh Hm. unfold strftime_HM.
  destruct (two_digits_shape (Z.to_nat (hour e))) as ((h1 & h2 & Eh) & Ih); [lia|].
  destruct (two_digits_shape (Z.to_nat (minute e))) as ((m1 & m2 & Em) & Im); [lia|].
  rewrite Z2Nat.id in Eh, Ih, Em, Im by lia.
  rewrite Eh in Ih. rewrite Em in Im.
  exists h1, h2, m1, m2. rewrite Eh, Em. auto.
Qed.

Section TimeColumn.

Variable tm_hour : nat -> Z.
Variable overdue : ScheduledTask -> bool.
Variable should_be_active : ScheduledTask -> ScheduledTask -> bool.
Variable hide_projects : bool.

Lemma draw_task_details_time f line task color n o2 :
  offsets f !! 2%nat = Some o2 ->
  In (Addstr line o2 (formatted_time task) color)
     (calls (draw_task_details hide_projects f line task color n)).
Proof.
  intros E2. unfold draw_task_details.
  eapply in_bind_r; [reflexivity|].
  destruct (negb (task_id task =? 0)).
  all: eapply in_bind_r; [reflexivity|].
  all: eapply in_bind_r; [unfold lift, Py.getitem; rewrite E2; reflexivity|].
  all: apply in_bind_l; left; reflexivity.
Qed.

(** C8: the time column of a task row, at the offset of the time
    column, shows the start time alone when the task has no end, and the
    start time, a hyphen and the end as HH:MM when it has one. *)
Theorem time_column f i tasks ii task l n o2 :
  offsets f !! 2%nat = Some o2 ->
  In (Addstr (current_line l) o2
        (match end_ task with
         | None => start_time task
         | Some e => start_time task +:+ "-" +:+ strftime_HM e
         end)
        (row_color overdue task (is_current should_be_active tasks ii task)
           (alternate l)))
     (calls (draw_task tm_hour overdue should_be_active hide_projects
               f i tasks ii task l n)) /\
  forall e, end_ task = Some e ->
    0 <= hour e < 24 -> 0 <= minute e < 60 ->
    exists h1 h2 m1 m2,
      strftime_HM e = String h1 (String h2 (String ":" (String m1 (String m2 "")))) /\
      Py.int (String h1 (String h2 "")) = Some (hour e) /\
      Py.int (String m1 (String m2 "")) = Some (minute e).
Proof.
  intros E2. split.
  - unfold draw_task.
    destruct (ii =? 0)%nat.
    all: eapply in_bind_r;
      [first [apply draw_hour_label_first | apply draw_hour_label_blank]|].
    all: eapply in_bind_r; [reflexivity|].
    all: apply in_bind_l; apply (draw_task_details_time _ _ _ _ _ _ E2).
  - intros e _. apply strftime_HM_shape.
Qed.

End TimeColumn.

(** C7: an hour number is written in the colour of the current hour
    exactly when it is the hour that the clock gives at the reading taken
    for that row, and every row takes a reading of its own: the row of an
    empty hour and the first row of a bucket use the reading taken while
    they are drawn, every task row takes one reading, the two hour
    colours differ, and on a clock that turns from 9 to 10 during a tick
    both 9 and 10 are highlighted. *)
Theorem hour_highlight_fresh :
  (forall tm_hour hide_empty f i l n,
     draw_empty_hour tm_hour hide_empty f i l n =
     if past_first_task l || negb hide_empty then
       mkOut [Addstr (current_line l) 5 (Py.mul " " (max_x f - 5))
                (if alternate l then color_pair 1 else color_pair 3);
              Addstr (current_line l) 0 (Py.str (Z.of_nat i)) (hour_attr i (tm_hour n))]
             (S n) (inr (after_rows 1 false l))
     else mkOut [] n (inr l)) /\
  (forall tm_hour overdue should_be_active hide_projects f i tasks task l n,
     List.filter is_hour_label
       (calls (draw_task tm_hour overdue should_be_active hide_projects
                 f i tasks 0 task l n)) =
     [Addstr (current_line l) 0 (Py.str (Z.of_nat i)) (hour_attr i (tm_hour n))]) /\
  (forall tm_hour overdue should_be_active hide_projects f i tasks ii task l n,
     reads (draw_task tm_hour overdue should_be_active hide_projects
              f i tasks ii task l n) = S n) /\
  (forall (i : nat) (now : Z), hour_attr i now = color_pair 5 <-> Z.of_nat i = now) /\
  pair_colors 5 <> pair_colors 2 /\
  List.filter is_highlight
    (calls (tick Sample.clock Sample.late Sample.before_next 1 true false
              Sample.frame None 0%nat)) =
  [Addstr 1 0 "9" (color_pair 5); Addstr 3 0 "10" (color_pair 5)].
Proof.
  split; [|split; [|split; [|split; [|split]]]].
  - intros. apply draw_empty_hour_run.
  - intros.
    destruct (draw_task_calls tm_hour overdue should_be_active hide_projects
                f i tasks 0 task l n) as (rest & E & Fr & _).
    rewrite E. cbn [Nat.eqb app List.filter]. rewrite hour_attr_label.
    simpl. f_equal. apply filter_none.
    eapply Forall_impl; [exact Fr|]. intros c H.
    rewrite row_color_classify in H.
    eapply row_call_not_label; [|exact H]. discriminate.
  - intros.
    destruct (draw_task_calls tm_hour overdue should_be_active hide_projects
                f i tasks ii task l n) as (rest & _ & _ & R).
    exact R.
  - intros i now. unfold hour_attr.
    destruct (Z.eqb_spec (Z.of_nat i) now) as [E|E]; split; intros H;
      first [reflexivity | exact E | contradiction | vm_compute in H; discriminate H].
  - intros H. vm_compute in H. discriminate H.
  - vm_compute. reflexivity.
Qed.

(** ** One iteration of the loop *)


Lemma row_color_shade overdue task cur alt :
  (row_color overdue task cur alt = color_pair 1 \/
   row_color overdue task cur alt = color_pair 7 -> alt = true) /\
  (row_color overdue task cur alt = color_pair 3 \/
   row_color overdue task cur alt = color_pair 6 -> alt = false).
Proof.
  unfold row_color.
  destruct (active task), cur, (overdue task), (completed task), alt;
    split; intros [H|H];
    first [reflexivity | vm_compute in H; discriminate H].
Qed.

Lemma striped_next l seen : striped l -> striped (after_rows 1 seen l).
Proof.
  unfold striped, after_rows. simpl. intros ->.
  replace (current_line l + Z.of_nat 1 - 1) with (current_line l) by lia.
  replace (current_line l - 1) with (Z.pred (current_line l)) by lia.
  rewrite Z.even_pred, xorb_true_r, Z.negb_odd. reflexivity.
Qed.

Section TickFacts.

Variable tm_hour : nat -> Z.
Variable overdue : ScheduledTask -> bool.
Variable should_be_active : ScheduledTask -> ScheduledTask -> bool.
Variable refresh_rate : Z.
Variable hide_empty : bool.
Variable hide_projects : bool.

Lemma draw_headers_run f n o1 o2 o3 o4 :
  offsets f !! 1%nat = Some o1 -> offsets f !! 2%nat = Some o2 ->
  offsets f !! 3%nat = Some o3 -> offsets f !! 4%nat = Some o4 ->
  draw_headers hide_projects f n =
  mkOut (header_calls hide_projects o1 o2 o3 o4) n (inr tt).
Proof.
  intros E1 E2 E3 E4. unfold draw_headers, Py.getitem, addstr.
  rewrite E1, E2, E3, E4.
  destruct hide_projects; cbn [negb lookup list_lookup headers];
    repeat (rewrite ?bind_lift, ?bind_emit; cbn [calls reads result]);
    reflexivity.
Qed.

Lemma draw_headers_emits f :
  emits (fun c => line_of c = Some 0) (draw_headers hide_projects f) (fun _ => True).
Proof. unfold draw_headers, addstr. emits_auto; try exact I; reflexivity. Qed.

Lemma row_call_line ii line color c :
  row_call ii line color c -> line_of c = Some line.
Proof. intros (x & s & a & -> & _). reflexivity. Qed.

(** The hours only write, whatever happens. *)
Lemma draw_hour_emits f i l :
  emits (fun c => exists y, line_of c = Some y)
        (draw_hour tm_hour overdue should_be_active hide_empty hide_projects f i l)
        (fun _ => True).
Proof.
  unfold draw_hour.
  apply emits_then; [apply emits_lift; auto|]. intros tasks.
  apply emits_then.
  - destruct tasks; [|apply emits_ret; exact I].
    intros n. rewrite draw_empty_hour_run.
    destruct (past_first_task l || negb hide_empty); simpl;
      (split; [repeat constructor; eauto | auto]).
  - intros l'.
    apply (emits_for_enumerate _ (fun _ => True)); [|exact I].
    intros k x s _ _.
    eapply emits_weaken; [| |apply draw_task_emits]; [|auto].
    intros c H. eexists. eapply row_call_line, H.
Qed.

(** The hours keep the stripes. *)
Lemma draw_hour_stripes f i l :
  striped l ->
  emits stripe_ok
        (draw_hour tm_hour overdue should_be_active hide_empty hide_projects f i l)
        striped.
Proof.
  intros Hl. unfold draw_hour.
  apply emits_then; [apply emits_lift; auto|]. intros tasks.
  apply (emits_bind _ _ _ striped).
  - destruct tasks; [|apply emits_ret; exact Hl].
    intros n. rewrite draw_empty_hour_run.
    destruct (past_first_task l || negb hide_empty); simpl.
    + split.
      * constructor; [|constructor; [|constructor]].
        -- intros y x s a E. injection E as <- <- <- <-.
           rewrite <- Hl.
           destruct (alternate l); split; intros [H|H];
             first [reflexivity | vm_compute in H; discriminate H].
        -- intros y x s a E. injection E as <- <- <- <-. unfold hour_attr.
           destruct (Z.of_nat i =? tm_hour n); split; intros [H|H];
             vm_compute in H; discriminate H.
      * intros a E. injection E as <-. apply striped_next, Hl.
    + split; [constructor|]. intros a E. injection E as <-. exact Hl.
  - intros l' Hl'.
    apply (emits_for_enumerate _ striped); [|exact Hl'].
    intros k x s _ Hs.
    eapply emits_weaken; [| |apply draw_task_emits].
    + intros c (x' & s' & a & -> & H) y0 x0 s0 a0 E.
      injection E as <- <- <- <-. rewrite <- Hs.
      destruct H as [->|[->|(_ & _ & [->| ->])]].
      * apply row_color_shade.
      * split; intros [H|H]; vm_compute in H; discriminate H.
      * split; intros [H|H]; vm_compute in H; discriminate H.
      * split; intros [H|H]; vm_compute in H; discriminate H.
    + intros a ->. apply striped_next, Hs.
Qed.


Lemma tick_run f prev n :
  frame_ok f = true ->
  exists k cs o1 o2 o3 o4,
    covers cs 1 (1 + Z.of_nat k) /\
    for_each
      (draw_hour tm_hour overdue should_be_active hide_empty hide_projects f)
      (seq 0 24) first_line n =
    mkOut cs (n + k) (inr (after_rows k (some_task f (seq 0 24)) first_line)) /\
    tick tm_hour overdue should_be_active refresh_rate hide_empty hide_projects
         f prev n =
    mkOut
      (((if bool_decide (Some (as_dict f) <> prev) then [Clear] else []) ++
        header_calls hide_projects o1 o2 o3 o4 ++ cs ++ [Refresh]) ++
       (if refresh_rate <? 0 then [] else [Sleep refresh_rate]))
      (n + k)
      (if refresh_rate <? 0 then inl Py.ValueError else inr (Some (as_dict f))).
Proof.
  intros Hf.
  destruct (frame_ok_offsets f Hf) as (o1 & o2 & o3 & o4 & E1 & E2 & E3 & E4).
  destruct (hours_run tm_hour overdue should_be_active hide_empty hide_projects
              f o2 o3 o4 E2 E3 E4 (seq 0 24) first_line n) as (k & cs & Eh & C).
  { apply Forall_forall. intros i Hi. apply frame_ok_hours; [exact Hf|].
    apply list_elem_of_In, in_seq in Hi. lia. }
  exists k, cs, o1, o2, o3, o4. split; [exact C | split; [exact Eh|]].
  unfold tick.
  erewrite bind_ok.
  2: { instantiate (1 := tt). instantiate (1 := n).
       instantiate (1 := if bool_decide (Some (as_dict f) <> prev) then [Clear] else []).
       destruct (bool_decide (Some (as_dict f) <> prev)); reflexivity. }
  erewrite bind_ok; [|apply (draw_headers_run f n o1 o2 o3 o4 E1 E2 E3 E4)].
  erewrite bind_ok; [|exact Eh].
  cbn [calls reads result].
  unfold bind, refresh, sleep, emit, raise, ret.
  destruct (refresh_rate <? 0); cbn [calls reads result];
    rewrite ?app_nil_r, <- ?app_assoc; reflexivity.
Qed.

(** Only the test on the snapshot clears the screen. *)
Lemma tick_clears f prev n :
  List.filter is_clear
    (calls (tick tm_hour overdue should_be_active refresh_rate hide_empty
              hide_projects f prev n)) =
  if bool_decide (Some (as_dict f) <> prev) then [Clear] else [].
Proof.
  unfold tick.
  set (k := fun _ : unit => bind (draw_headers hide_projects f) _).
  assert (Hk : Forall (fun c => is_clear c = false) (calls (k tt n))).
  { assert (E : emits (fun c => is_clear c = false) (k tt) (fun _ => True));
      [|apply E].
    unfold k.
    apply emits_then.
    { eapply emits_weaken; [| |apply draw_headers_emits]; [|auto].
      intros [] H; first [reflexivity | discriminate H]. }
    intros _. apply emits_then.
    { apply (emits_for_each _ (fun _ => True)); [|exact I].
      intros i l _.
      eapply emits_weaken; [| |apply draw_hour_emits]; [|auto].
      intros [] [ln H]; first [reflexivity | discriminate H]. }
    intros _. unfold refresh, sleep.
    emits_auto; try exact I; reflexivity. }
  destruct (bool_decide (Some (as_dict f) <> prev)).
  - erewrite bind_ok; [|reflexivity]. cbn [calls app List.filter is_clear].
    f_equal. apply filter_none, Hk.
  - rewrite bind_ret_l. apply filter_none, Hk.
Qed.

End TickFacts.


(** ** The claims about the loop *)

(** C2: between two consecutive iterations the screen is cleared exactly
    when the dict of the later one differs from the dict of the earlier
    one: the first iteration hands its dict on, the calls of the two
    iterations follow each other, and the later one clears once when the
    dicts differ and not at all when they are equal. *)
Theorem clear_iff_snapshot_changed tm_hour overdue should_be_active
    refresh_rate hide_empty hide_projects f1 f2 prev n :
  frame_ok f1 = true -> 0 <= refresh_rate ->
  let o1 := tick tm_hour overdue should_be_active refresh_rate hide_empty
                 hide_projects f1 prev n in
  let o2 := tick tm_hour overdue should_be_active refresh_rate hide_empty
                 hide_projects f2 (Some (as_dict f1)) (reads o1) in
  result o1 = inr (Some (as_dict f1)) /\
  calls (ticks tm_hour overdue should_be_active refresh_rate hide_empty
           hide_projects [f1; f2] prev n) = calls o1 ++ calls o2 /\
  List.filter is_clear (calls o2) =
  if decide (as_dict f2 = as_dict f1) then [] else [Clear].
Proof.
  intros Hf Hr o1 o2.
  destruct (tick_run tm_hour overdue should_be_active refresh_rate hide_empty
              hide_projects f1 prev n Hf)
    as (k & cs & o1' & o2' & o3' & o4' & _ & _ & E).
  assert (Hneg : (refresh_rate <? 0) = false) by (apply Z.ltb_ge; exact Hr).
  rewrite Hneg in E.
  split; [|split].
  - subst o1. rewrite E. reflexivity.
  - subst o1 o2. simpl ticks. erewrite bind_ok; [|exact E].
    rewrite bind_ret_r, E. reflexivity.
  - subst o2. rewrite tick_clears.
    destruct (decide (as_dict f2 = as_dict f1)) as [Eq|Ne].
    + rewrite bool_decide_eq_false_2; [reflexivity|]. rewrite Eq. auto.
    + rewrite bool_decide_eq_true_2; [reflexivity|]. congruence.
Qed.

Lemma seq_split i m : seq 0 (i + S m) = seq 0 i ++ i :: seq (S i) m.
Proof. rewrite seq_app. reflexivity. Qed.


(** C4, as the code has it: with the project column hidden the headers
    drawn are ID, Time and Project, underlined, and Description is not
    drawn, while the rows write the description at the offset of the
    Project header. *)
Theorem headers_with_hidden_projects mx d o0 o1 o2 o3 rest line task color n :
  let f := {| max_x := mx; as_dict := d; offsets := o0 :: o1 :: o2 :: o3 :: rest |} in
  draw_headers true f n =
  mkOut [Addstr 0 o1 "ID" (Z.lor (color_pair 4) A_UNDERLINE);
         Addstr 0 o2 "Time" (Z.lor (color_pair 4) A_UNDERLINE);
         Addstr 0 o3 "Project" (Z.lor (color_pair 4) A_UNDERLINE)] n (inr tt) /\
  underlined (Z.lor (color_pair 4) A_UNDERLINE) = true /\
  last (calls (draw_task_details true f line task color n)) =
  Some (Addstr line o3 (description task) color).
Proof.
  intros f. split; [reflexivity | split; [reflexivity|]].
  unfold draw_task_details, bind, addstr, emit, lift, ret, Py.getitem. simpl.
  destruct (task_id task =? 0); reflexivity.
Qed.

(** C6: the striping flag flips once per row and only there. On the
    screen the shades of a set flag are on the lines 1, 3, 5, ... and
    those of a cleared flag on the lines 2, 4, 6, ..., whatever the hours
    of the rows; after the hours up to [i] the rows are the lines 1 to
    [k], the flag is set exactly when [k] is even; an hour that draws no
    row leaves the flag alone, and a task row and a filler row flip it. *)
Theorem alternation_flips_once_per_row tm_hour overdue should_be_active
    hide_empty hide_projects f :
  (forall hs,
     emits stripe_ok
       (for_each
          (draw_hour tm_hour overdue should_be_active hide_empty hide_projects f)
          hs first_line)
       striped) /\
  (frame_ok f = true ->
   forall i n, (i <= 24)%nat ->
     exists k cs l,
       for_each
         (draw_hour tm_hour overdue should_be_active hide_empty hide_projects f)
         (seq 0 i) first_line n = mkOut cs (n + k) (inr l) /\
       covers cs 1 (1 + Z.of_nat k) /\
       current_line l = 1 + Z.of_nat k /\
       alternate l = Nat.even k) /\
  (forall i l n,
     as_dict f !! i = Some [] ->
     past_first_task l || negb hide_empty = false ->
     draw_hour tm_hour overdue should_be_active hide_empty hide_projects f i l n =
     mkOut [] n (inr l)) /\
  (forall i tasks ii task l n l',
     result (draw_task tm_hour overdue should_be_active hide_projects
               f i tasks ii task l n) = inr l' ->
     alternate l' = negb (alternate l) /\ current_line l' = current_line l + 1) /\
  (forall i l n l',
     past_first_task l || negb hide_empty = true ->
     result (draw_empty_hour tm_hour hide_empty f i l n) = inr l' ->
     alternate l' = negb (alternate l) /\ current_line l' = current_line l + 1).
Proof.
  split; [|split; [|split; [|split]]].
  - intros hs. apply (emits_for_each _ striped); [|reflexivity].
    intros i l Hl. apply draw_hour_stripes, Hl.
  - intros Hf i n Hi.
    destruct (frame_ok_offsets f Hf) as (o1 & o2 & o3 & o4 & E1 & E2 & E3 & E4).
    destruct (hours_run tm_hour overdue should_be_active hide_empty hide_projects
                f o2 o3 o4 E2 E3 E4 (seq 0 i) first_line n) as (k & cs & Eh & C).
    { apply Forall_forall. intros j Hj. apply frame_ok_hours; [exact Hf|].
      apply list_elem_of_In, in_seq in Hj. lia. }
    exists k, cs, (after_rows k (some_task f (seq 0 i)) first_line).
    split; [exact Eh | split; [exact C | split; [reflexivity|]]].
    simpl. apply Nat.negb_odd.
  - intros i l n Et Hh. unfold draw_hour. rewrite Et, bind_lift.
    cbn [for_enumerate]. rewrite bind_ret_r, draw_empty_hour_run, Hh. reflexivity.
  - intros i tasks ii task l n l' H.
    destruct (draw_task_emits tm_hour overdue should_be_active hide_projects
                f i tasks ii task l n) as [_ Hr].
    rewrite (Hr l' H). simpl. rewrite xorb_true_r. split; [reflexivity | lia].
  - intros i l n l' Hh H. rewrite draw_empty_hour_run, Hh in H.
    injection H as <-. simpl. rewrite xorb_true_r. split; [reflexivity | lia].
Qed.

(** ** The command line *)

Lemma parse_args_cons tok rest ns :
  Argparse.parse_args (tok :: rest) ns =
  if Argparse.is_option tok "-r" "--refresh" then
    match rest with
    | v :: rest' =>
        match Py.int v with
        | Some n => Argparse.parse_args rest' (Argparse.set_refresh n ns)
        | None => inl Py.SystemExit
        end
    | [] => inl Py.SystemExit
    end
  else if Argparse.is_option tok "-s" "--scheduled" then
    match rest with
    | v :: rest' =>
        if Argparse.starts_with_dash v then inl Py.SystemExit
        else Argparse.parse_args rest' (Argparse.set_scheduled v ns)
    | [] => inl Py.SystemExit
    end
  else if Argparse.is_option tok "-a" "--all" then
    Argparse.parse_args rest (Argparse.set_all true ns)
  else if Argparse.is_option tok "-c" "--completed" then
    Argparse.parse_args rest (Argparse.set_completed false ns)
  else if Argparse.is_option tok "-p" "--project" then
    Argparse.parse_args rest (Argparse.set_project true ns)
  else inl Py.SystemExit.
Proof. reflexivity. Qed.






(** ** The claims on the sample day *)

Lemma sample_frame_ok : frame_ok Sample.frame = true.
Proof. vm_compute. reflexivity. Qed.



Lemma clear_iff_snapshot_changed_witness :
  frame_ok Sample.frame = true /\ 0 <= 1 /\
  List.filter is_clear
    (calls (sample_tick Sample.quiet (Some (as_dict Sample.frame))
              (reads (sample_tick Sample.frame None 0)))) = [Clear] /\
  List.filter is_clear
    (calls (sample_tick Sample.frame (Some (as_dict Sample.frame))
              (reads (sample_tick Sample.frame None 0)))) = [].
Proof.
  split; [exact sample_frame_ok | split; [lia | split]].
  - pose proof (clear_iff_snapshot_changed Sample.clock Sample.late
                  Sample.before_next 1 true false Sample.frame Sample.quiet None 0
                  sample_frame_ok ltac:(lia)) as H.
    cbv zeta in H. destruct H as (_ & _ & H). unfold sample_tick. rewrite H.
    destruct (decide (as_dict Sample.quiet = as_dict Sample.frame)) as [E|_];
      [|reflexivity].
    apply (f_equal (fun d => d !! 9%nat)) in E. vm_compute in E. discriminate E.
  - pose proof (clear_iff_snapshot_changed Sample.clock Sample.late
                  Sample.before_next 1 true false Sample.frame Sample.frame None 0
                  sample_frame_ok ltac:(lia)) as H.
    cbv zeta in H. destruct H as (_ & _ & H). unfold sample_tick. rewrite H.
    destruct (decide (as_dict Sample.frame = as_dict Sample.frame)) as [_|E];
      [reflexivity | destruct E; reflexivity].
Defined.



Lemma alternation_flips_once_per_row_witness :
  frame_ok Sample.frame = true /\ (24 <= 24)%nat /\
  (exists k cs l,
     for_each
       (draw_hour Sample.clock Sample.late Sample.before_next true false Sample.frame)
       (seq 0 24) first_line 0%nat = mkOut cs k (inr l) /\
     covers cs 1 (1 + Z.of_nat k) /\
     current_line l = 1 + Z.of_nat k /\ alternate l = Nat.even k) /\
  as_dict Sample.frame !! 3%nat = Some [] /\
  draw_hour Sample.clock Sample.late Sample.before_next true false Sample.frame
            3 first_line 0%nat = mkOut [] 0%nat (inr first_line).
Proof.
  destruct (alternation_flips_once_per_row Sample.clock Sample.late
              Sample.before_next true false Sample.frame) as (_ & H2 & H3 & _).
  split; [exact sample_frame_ok | split; [lia | split; [|split]]].
  - apply (H2 sample_frame_ok 24%nat 0%nat). lia.
  - reflexivity.
  - apply H3; reflexivity.
Defined.

Lemma hour_highlight_fresh_witness :
  Z.of_nat 9 = Sample.clock 0 /\ hour_attr 9 (Sample.clock 0) = color_pair 5.
Proof.
  destruct hour_highlight_fresh as (_ & _ & _ & H & _).
  split; [reflexivity|]. apply H. reflexivity.
Defined.

Lemma time_column_witness :
  offsets Sample.frame !! 2%nat = Some 8 /\
  In (Addstr 1 8 "09:00" (color_pair 10)) (calls (sample_row 0 Sample.report first_line 0)) /\
  In (Addstr 2 8 "09:30-09:45" (color_pair 8))
     (calls (sample_row 1 Sample.standup (after_rows 1 true first_line) 1)) /\
  strftime_HM {| hour := 9; minute := 45 |} = "09:45".
Proof.
  split; [reflexivity|].
  pose proof (time_column Sample.clock Sample.late Sample.before_next false
                Sample.frame 9 [Sample.report; Sample.standup] 0 Sample.report
                first_line 0 8 eq_refl) as [H1 _].
  pose proof (time_column Sample.clock Sample.late Sample.before_next false
                Sample.frame 9 [Sample.report; Sample.standup] 1 Sample.standup
                (after_rows 1 true first_line) 1 8 eq_refl) as [H2 H3].
  split; [exact H1 | split; [exact H2|]].
  destruct (H3 {| hour := 9; minute := 45 |} eq_refl) as (h1 & h2 & m1 & m2 & E & _);
    [simpl; lia | simpl; lia |].
  reflexivity.
Defined.

Lemma last_task_never_current_witness :
  length [Sample.report; Sample.standup] = 2%nat /\
  Forall (fun c => attr_of c <> Some (color_pair 10))
         (calls (sample_row 1 Sample.standup (after_rows 1 true first_line) 1)).
Proof.
  split; [reflexivity|].
  apply (last_task_never_current Sample.clock Sample.late Sample.before_next false
           Sample.frame 9 [Sample.report; Sample.standup] 1 Sample.standup
           (after_rows 1 true first_line) 1 eq_refl).
Defined.

Lemma hour_label_first_row_only_witness :
  as_dict Sample.frame !! 9%nat = Some [Sample.report; Sample.standup] /\
  List.filter is_hour_label
    (calls (draw_hour Sample.clock Sample.late Sample.before_next true false
              Sample.frame 9 first_line 0%nat)) =
  [Addstr 1 0 "9" (color_pair 5)].
Proof.
  split; [reflexivity|].
  apply (hour_label_first_row_only Sample.clock Sample.late Sample.before_next
           true false Sample.frame 9 Sample.report [Sample.standup]
           first_line 0%nat eq_refl).
Defined.

(** ** The run of the loop *)

Lemma bind_lift_raise {A B} e (k : A -> M B) n :
  bind (lift (inl e)) k n = mkOut [] n (inl e).
Proof. reflexivity. Qed.


Lemma covers_no_pause cs a b :
  covers cs a b -> Forall (fun c => is_pause c = false) cs.
Proof.
  intros [F _]. eapply Forall_impl; [exact F|].
  intros [] (ln & E & _); first [reflexivity | discriminate E].
Qed.

Lemma changes_same d ds :
  Forall (fun d' => d' = d) ds -> changes (Some d) ds = 0%nat.
Proof.
  induction 1 as [|d' ds -> _ IH]; [reflexivity|]. simpl.
  rewrite bool_decide_eq_false_2 by auto. exact IH.
Qed.

Lemma changes_first d ds : changes None (d :: ds) = S (changes (Some d) ds).
Proof.
  cbn [changes]. case_bool_decide as H; [reflexivity | discriminate H].
Qed.

Section Run.

Variable tm_hour : nat -> Z.
Variable overdue : ScheduledTask -> bool.
Variable should_be_active : ScheduledTask -> ScheduledTask -> bool.
Variable refresh_rate : Z.
Variable hide_empty : bool.
Variable hide_projects : bool.

Lemma ticks_app fs1 fs2 prev n :
ticks tm_hour overdue should_be_active refresh_rate hide_empty hide_projects
      (fs1 ++ fs2) prev n =
bind (ticks tm_hour overdue should_be_active refresh_rate hide_empty
            hide_projects fs1 prev)
     (ticks tm_hour overdue should_be_active refresh_rate hide_empty
            hide_projects fs2) n.
Proof.
revert prev n. induction fs1 as [|f fs1 IH]; intros prev n; simpl.
- rewrite bind_ret_l. reflexivity.
- unfold bind.
  destruct (tick tm_hour overdue should_be_active refresh_rate hide_empty
                 hide_projects f prev n) as [cs r [e|p]]; simpl; [reflexivity|].
  rewrite IH. unfold bind.
  destruct (ticks tm_hour overdue should_be_active refresh_rate hide_empty
                  hide_projects fs1 p r) as [cs1 r1 [e1|p1]]; simpl;
    [reflexivity|]. rewrite app_assoc. reflexivity.
Qed.

Lemma tick_pauses f prev n :
frame_ok f = true -> 0 <= refresh_rate ->
exists k,
  tick tm_hour overdue should_be_active refresh_rate hide_empty hide_projects
       f prev n =
  mkOut (calls (tick tm_hour overdue should_be_active refresh_rate hide_empty
                     hide_projects f prev n))
        (n + k) (inr (Some (as_dict f))) /\
  List.filter is_pause
    (calls (tick tm_hour overdue should_be_active refresh_rate hide_empty
                 hide_projects f prev n)) = [Refresh; Sleep refresh_rate].
Proof.
intros Hf Hr.
destruct (tick_run tm_hour overdue should_be_active refresh_rate hide_empty
            hide_projects f prev n Hf)
  as (k & cs & o1 & o2 & o3 & o4 & C & _ & E).
assert (Hneg : (refresh_rate <? 0) = false) by (apply Z.ltb_ge; exact Hr).
rewrite Hneg in E. exists k. rewrite E. cbn [calls]. split; [reflexivity|].
rewrite !List.filter_app.
rewrite (filter_none is_pause cs (covers_no_pause _ _ _ C)).
destruct (bool_decide (Some (as_dict f) <> prev)), hide_projects; reflexivity.
Qed.

Lemma ticks_run frames :
Forall (fun f => frame_ok f = true) frames -> 0 <= refresh_rate ->
forall prev n,
  let o := ticks tm_hour overdue should_be_active refresh_rate hide_empty
                 hide_projects frames prev n in
  (exists p, result o = inr p) /\
  List.filter is_clear (calls o) =
  replicate (changes prev (map as_dict frames)) Clear /\
  List.filter is_pause (calls o) =
  concat (replicate (length frames) [Refresh; Sleep refresh_rate]).
Proof.
intros HF Hr. induction HF as [|f frames Hf _ IH]; intros prev n o.
- subst o. simpl. eauto.
- subst o. simpl ticks.
  destruct (tick_pauses f prev n Hf Hr) as (k & E & Hp).
  erewrite bind_ok; [|exact E]. cbn [calls result].
  destruct (IH (Some (as_dict f)) (n + k)%nat) as (Hres & Hc & Hs).
  split; [exact Hres | split].
  + rewrite List.filter_app, Hc, tick_clears. simpl.
    destruct (bool_decide (Some (as_dict f) <> prev)); reflexivity.
  + rewrite List.filter_app, Hp, Hs. reflexivity.
Qed.


(** X2: over a run of good frames the screen is cleared once per change of
  the dict, the first frame counting as a change; when all frames carry
  the same dict the screen is cleared exactly once. *)
Theorem run_clears_once_per_change frames n :
Forall (fun f => frame_ok f = true) frames -> 0 <= refresh_rate ->
List.filter is_clear
  (calls (draw tm_hour overdue should_be_active refresh_rate hide_empty
               hide_projects frames n)) =
replicate (changes None (map as_dict frames)) Clear /\
forall f0 rest,
  frames = f0 :: rest -> Forall (fun f => as_dict f = as_dict f0) rest ->
  List.filter is_clear
    (calls (draw tm_hour overdue should_be_active refresh_rate hide_empty
                 hide_projects frames n)) = [Clear].
Proof.
intros HF Hr.
destruct (ticks_run frames HF Hr None n) as ((p & Hres) & Hc & _).
assert (Hd : calls (draw tm_hour overdue should_be_active refresh_rate
                      hide_empty hide_projects frames n) =
             calls (ticks tm_hour overdue should_be_active refresh_rate
                      hide_empty hide_projects frames None n)).
{ unfold draw, bind. rewrite Hres. simpl. apply app_nil_r. }
rewrite Hd. split; [exact Hc|].
intros f0 rest -> Hsame. rewrite Hc.
change (map as_dict (f0 :: rest)) with (as_dict f0 :: map as_dict rest).
rewrite changes_first, changes_same; [reflexivity|].
apply Forall_fmap. exact Hsame.
Qed.



End Run.

(** ** What [draw] raises *)

Section Raises.

Context {A : Type} (E : Py.Exn -> Prop).






End Raises.





Section Failures.

Variable tm_hour : nat -> Z.
Variable overdue : ScheduledTask -> bool.
Variable should_be_active : ScheduledTask -> ScheduledTask -> bool.
Variable refresh_rate : Z.
Variable hide_empty : bool.
Variable hide_projects : bool.

Lemma draw_hour_missing f i l n :
as_dict f !! i = None ->
draw_hour tm_hour overdue should_be_active hide_empty hide_projects f i l n =
mkOut [] n (inl Py.KeyError).
Proof. intros E. unfold draw_hour. rewrite E. apply bind_lift_raise. Qed.

(** X5: when the dict lacks an hour, an iteration ends with [KeyError] at
  the first missing hour: the headers and the rows of the hours before it
  have been written, on the lines 1 to [k], with one clock reading each,
  and the screen is neither refreshed nor does the loop sleep. *)
Theorem missing_hour_raises_KeyError f i prev n :
(5 <= length (offsets f))%nat -> (i < 24)%nat ->
(forall j, (j < i)%nat -> is_Some (as_dict f !! j)) ->
as_dict f !! i = None ->
let o := tick tm_hour overdue should_be_active refresh_rate hide_empty
              hide_projects f prev n in
result o = inl Py.KeyError /\
List.filter is_pause (calls o) = [] /\
exists k cs,
  calls o =
  (if bool_decide (Some (as_dict f) <> prev) then [Clear] else []) ++
  calls (draw_headers hide_projects f n) ++ cs /\
  covers cs 1 (1 + Z.of_nat k) /\
  reads o = (n + k)%nat.
Proof.
intros Hlen Hi Hbefore Hmiss o.
destruct (offsets_lookup f Hlen) as (o2 & o3 & o4 & E2 & E3 & E4).
destruct (lookup_lt_is_Some_2 (offsets f) 1%nat) as [o1 E1]; [lia|].
destruct (hours_run tm_hour overdue should_be_active hide_empty hide_projects
            f o2 o3 o4 E2 E3 E4 (seq 0 i) first_line n) as (k & cs & Eh & C).
{ apply Forall_forall. intros j Hj. apply Hbefore.
  apply list_elem_of_In, in_seq in Hj. lia. }
assert (Hall : seq 0 24 = seq 0 i ++ i :: seq (S i) (23 - i)).
{ rewrite <- seq_split. f_equal. lia. }
assert (Eo : o = mkOut
               ((if bool_decide (Some (as_dict f) <> prev) then [Clear] else []) ++
                header_calls hide_projects o1 o2 o3 o4 ++ cs)
               (n + k) (inl Py.KeyError)).
{ subst o. unfold tick.
  erewrite bind_ok.
  2: { instantiate (1 := tt). instantiate (1 := n).
       instantiate (1 := if bool_decide (Some (as_dict f) <> prev)
                         then [Clear] else []).
       destruct (bool_decide (Some (as_dict f) <> prev)); reflexivity. }
  erewrite bind_ok; [|apply (draw_headers_run hide_projects f n o1 o2 o3 o4 E1 E2 E3 E4)].
  erewrite bind_raise; [reflexivity|].
  rewrite Hall, for_each_app. erewrite bind_ok; [|exact Eh].
  simpl for_each. erewrite bind_raise; [|apply draw_hour_missing, Hmiss].
  cbn [calls reads result]. rewrite app_nil_r. reflexivity. }
rewrite Eo. cbn [calls reads result].
split; [reflexivity | split].
- rewrite !List.filter_app.
  rewrite (filter_none is_pause cs (covers_no_pause _ _ _ C)).
  destruct (bool_decide (Some (as_dict f) <> prev)), hide_projects; reflexivity.
- exists k, cs.
  rewrite (draw_headers_run hide_projects f n o1 o2 o3 o4 E1 E2 E3 E4).
  split; [reflexivity | split; [exact C | reflexivity]].
Qed.

Lemma draw_headers_short f n :
(length (offsets f) < (if hide_projects then 4 else 5))%nat ->
result (draw_headers hide_projects f n) = inl Py.IndexError.
Proof.
intros Hlen. unfold draw_headers, Py.getitem, addstr.
destruct (offsets f) as [|o0 [|o1 [|o2 [|o3 [|o4 rest]]]]];
  cbn [lookup list_lookup headers];
  repeat (rewrite ?bind_lift, ?bind_emit, ?bind_lift_raise;
          cbn [calls reads result]);
  try reflexivity.
- destruct hide_projects; simpl in Hlen; [lia|].
  cbn [negb]. rewrite bind_lift_raise. reflexivity.
- destruct hide_projects; simpl in Hlen; lia.
Qed.

(** X6: when the list of offsets is too short (fewer than five, or fewer
  than four with the project column hidden), an iteration ends with
  [IndexError] in the headers: nothing is written below the header line
  and the screen is neither refreshed nor does the loop sleep. *)
Theorem short_offsets_raise_IndexError f prev n :
(length (offsets f) < (if hide_projects then 4 else 5))%nat ->
let o := tick tm_hour overdue should_be_active refresh_rate hide_empty
              hide_projects f prev n in
result o = inl Py.IndexError /\
Forall (fun c => c = Clear \/ line_of c = Some 0) (calls o).
Proof.
intros Hlen o.
pose proof (draw_headers_short f n Hlen) as Hr.
pose proof (draw_headers_emits hide_projects f n) as [Hc _].
subst o. unfold tick.
assert (Hpre : forall B (k : unit -> M B),
          bind (if bool_decide (Some (as_dict f) <> prev) then clear else ret tt) k n =
          mkOut ((if bool_decide (Some (as_dict f) <> prev) then [Clear] else []) ++
                 calls (k tt n)) (reads (k tt n)) (result (k tt n))).
{ intros B k. destruct (bool_decide (Some (as_dict f) <> prev)).
  - apply bind_emit.
  - rewrite bind_ret_l. apply out_eta. }
assert (Eh : draw_headers hide_projects f n =
             mkOut (calls (draw_headers hide_projects f n))
                   (reads (draw_headers hide_projects f n)) (inl Py.IndexError)).
{ rewrite <- Hr. apply out_eta. }
rewrite Hpre, (bind_raise _ _ _ _ _ _ Eh). cbn [calls result].
split; [reflexivity|]. apply Forall_app. split.
- destruct (bool_decide (Some (as_dict f) <> prev)); repeat constructor.
- eapply Forall_impl; [exact Hc|]. auto.
Qed.

(** X7: an iteration reads nothing of the frame but the width, the dict
  and the offsets 1 to 4, and not the offset 4 when the project column is
  hidden: two frames that agree on these are drawn alike. *)
Theorem tick_reads_offsets_1_to_4 f f' prev n :
max_x f = max_x f' -> as_dict f = as_dict f' ->
offsets f !! 1%nat = offsets f' !! 1%nat ->
offsets f !! 2%nat = offsets f' !! 2%nat ->
offsets f !! 3%nat = offsets f' !! 3%nat ->
(hide_projects = false -> offsets f !! 4%nat = offsets f' !! 4%nat) ->
tick tm_hour overdue should_be_active refresh_rate hide_empty hide_projects
     f prev n =
tick tm_hour overdue should_be_active refresh_rate hide_empty hide_projects
     f' prev n.
Proof.
intros Hx Hd H1 H2 H3 H4.
unfold tick, draw_headers, draw_hour, draw_empty_hour, draw_task,
  draw_task_details, Py.getitem.
destruct hide_projects; cbn [negb].
- rewrite Hx, Hd, H1, H2, H3. reflexivity.
- rewrite Hx, Hd, H1, H2, H3, (H4 eq_refl). reflexivity.
Qed.


End Failures.

(** ** The rows of an iteration *)





Section Day.

Variable tm_hour : nat -> Z.
Variable overdue : ScheduledTask -> bool.
Variable should_be_active : ScheduledTask -> ScheduledTask -> bool.
Variable refresh_rate : Z.
Variable hide_empty : bool.
Variable hide_projects : bool.







(** X12: the task id 0 is not displayed: when no offset is 5, the writes
  of a task row at column 5 are the blank fill and, only for a task whose
  id is not 0, the id. *)
Theorem id_zero_is_not_displayed f i tasks ii task l n o2 o3 o4 :
offsets f !! 2%nat = Some o2 ->
offsets f !! 3%nat = Some o3 ->
offsets f !! 4%nat = Some o4 ->
o2 <> 5 -> o3 <> 5 -> o4 <> 5 ->
let color := row_color overdue task (is_current should_be_active tasks ii task)
                       (alternate l) in
List.filter (is_at_column 5)
  (calls (draw_task tm_hour overdue should_be_active hide_projects
                    f i tasks ii task l n)) =
Addstr (current_line l) 5 (Py.mul " " (max_x f - 5)) color ::
(if task_id task =? 0 then []
 else [Addstr (current_line l) 5 (Py.str (task_id task)) color]).
Proof.
intros E2 E3 E4 H2 H3 H4 color.
rewrite (draw_task_run tm_hour overdue should_be_active hide_projects
           f i tasks ii task l n o2 o3 o4 E2 E3 E4).
cbn [calls]. fold color. unfold detail_calls.
apply Z.eqb_neq in H2, H3, H4.
destruct (ii =? 0)%nat, (task_id task =? 0), hide_projects; simpl;
  rewrite ?H2, ?H3, ?H4; reflexivity.
Qed.

End Day.

(** ** More on the command line *)




Lemma parse_args_app_gen b len :
  forall a ns ns1,
    (length a <= len)%nat ->
    Argparse.parse_args a ns = inr ns1 ->
    Argparse.parse_args (a ++ b) ns = Argparse.parse_args b ns1.
Proof.
  induction len as [|len IH]; intros [|tok rest] ns ns1 Hlen H;
    try (injection H as <-; reflexivity); simpl in Hlen; [lia|].
  rewrite parse_args_cons in H.
  change ((tok :: rest) ++ b) with (tok :: (rest ++ b)). rewrite parse_args_cons.
  destruct (Argparse.is_option tok "-r" "--refresh").
  { destruct rest as [|v rest']; [discriminate H|].
    change ((v :: rest') ++ b) with (v :: (rest' ++ b)). cbv iota.
    destruct (Py.int v); [|discriminate H].
    apply IH; [simpl in Hlen; lia | exact H]. }
  destruct (Argparse.is_option tok "-s" "--scheduled").
  { destruct rest as [|v rest']; [discriminate H|].
    change ((v :: rest') ++ b) with (v :: (rest' ++ b)). cbv iota.
    destruct (Argparse.starts_with_dash v); [discriminate H|].
    apply IH; [simpl in Hlen; lia | exact H]. }
  destruct (Argparse.is_option tok "-a" "--all"); [apply IH; [lia | exact H]|].
  destruct (Argparse.is_option tok "-c" "--completed"); [apply IH; [lia | exact H]|].
  destruct (Argparse.is_option tok "-p" "--project"); [apply IH; [lia | exact H]|].
  discriminate H.
Qed.



(** X13: an accepted command line followed by an accepted command line is
    accepted, and is parsed as the second one starting from the result of
    the first; so a [-r] at the end overrides any earlier one. *)
Theorem parse_args_app a b ns ns1 ns2 :
  Argparse.parse_args a ns = inr ns1 ->
  Argparse.parse_args b ns1 = inr ns2 ->
  Argparse.parse_args (a ++ b) ns = inr ns2 /\
  (forall z,
     Argparse.parse_args (a ++ ["-r"; Py.str z]) ns =
     inr (Argparse.set_refresh z ns1)).
Proof.
  intros Ha Hb. split.
  - rewrite (parse_args_app_gen b (length a) a ns ns1 (Nat.le_refl _) Ha). exact Hb.
  - intros z.
    rewrite (parse_args_app_gen _ (length a) a ns ns1 (Nat.le_refl _) Ha).
    rewrite parse_args_cons.
    change (Argparse.is_option "-r" "-r" "--refresh") with true.
    cbv beta iota. rewrite int_str. reflexivity.
Qed.


(** X15: a command line that ends in [-r] or [-s] without a value exits
    before anything is drawn: [main] makes no call and reads no clock. *)
Theorem missing_value_exits tm_hour overdue should_be_active load_tasks a ns1 tok n :
  Argparse.parse_args a Argparse.defaults = inr ns1 ->
  Argparse.is_option tok "-r" "--refresh" = true \/
  Argparse.is_option tok "-s" "--scheduled" = true ->
  main tm_hour overdue should_be_active load_tasks (a ++ [tok]) n =
  mkOut [] n (inl Py.SystemExit).
Proof.
  intros Ha Htok. unfold main.
  rewrite (parse_args_app_gen [tok] (length a) a _ ns1 (Nat.le_refl _) Ha).
  rewrite parse_args_cons.
  destruct Htok as [Hr|Hs].
  - rewrite Hr. reflexivity.
  - destruct (Argparse.is_option tok "-r" "--refresh"); [reflexivity|].
    rewrite Hs. reflexivity.
Qed.

(** ** More on one iteration *)

(** X16: hiding the project column changes the end of a task row only:
    the row with the column shown ends with the project, the empty string
    for a task without project, at offset 3 and the description at offset
    4; with the column hidden it ends with the description at offset 3;
    the calls before are the same. *)
Theorem hidden_project_column_row tm_hour overdue should_be_active
    f i tasks ii task l n o2 o3 o4 :
  offsets f !! 2%nat = Some o2 ->
  offsets f !! 3%nat = Some o3 ->
  offsets f !! 4%nat = Some o4 ->
  let color := row_color overdue task (is_current should_be_active tasks ii task)
                         (alternate l) in
  exists common,
    calls (draw_task tm_hour overdue should_be_active false f i tasks ii task l n) =
    common ++
    [Addstr (current_line l) o3
       (match project task with None => "" | Some p => p end) color;
     Addstr (current_line l) o4 (description task) color] /\
    calls (draw_task tm_hour overdue should_be_active true f i tasks ii task l n) =
    common ++ [Addstr (current_line l) o3 (description task) color] /\
    In (Addstr (current_line l) o2 (formatted_time task) color) common.
Proof.
  intros E2 E3 E4 color.
  rewrite !(draw_task_run tm_hour overdue should_be_active _
              f i tasks ii task l n o2 o3 o4 E2 E3 E4).
  cbn [calls]. fold color. unfold detail_calls.
  exists ((if (ii =? 0)%nat
           then [Addstr (current_line l) 0 (Py.str (Z.of_nat i))
                   (hour_attr i (tm_hour n))]
           else []) ++
          Addstr (current_line l) 5 (Py.mul " " (max_x f - 5)) color ::
          [Addstr (current_line l) 3 (glyph task) (color_pair 9)] ++
          (if task_id task =? 0 then []
           else [Addstr (current_line l) 5 (Py.str (task_id task)) color]) ++
          [Addstr (current_line l) o2 (formatted_time task) color]).
  split; [|split].
  - rewrite <- !app_assoc. simpl. rewrite <- !app_assoc. reflexivity.
  - rewrite <- !app_assoc. simpl. rewrite <- !app_assoc. reflexivity.
  - apply in_or_app. right. simpl. right. right.
    apply in_or_app. right. left. reflexivity.
Qed.

(** X17: within an iteration the screen is never cleared after a write:
    the calls of an iteration are the clear, when the dict has changed, and
    then calls none of which is a clear, whether or not the iteration
    raises. *)
Theorem clear_comes_first tm_hour overdue should_be_active refresh_rate
    hide_empty hide_projects f prev n :
  exists rest,
    calls (tick tm_hour overdue should_be_active refresh_rate hide_empty
                hide_projects f prev n) =
    (if bool_decide (Some (as_dict f) <> prev) then [Clear] else []) ++ rest /\
    Forall (fun c => is_clear c = false) rest.
Proof.
  unfold tick.
  set (k := fun _ : unit => bind (draw_headers hide_projects f) _).
  assert (Hk : Forall (fun c => is_clear c = false) (calls (k tt n))).
  { assert (E : emits (fun c => is_clear c = false) (k tt) (fun _ => True));
      [|apply E].
    unfold k.
    apply emits_then.
    { eapply emits_weaken; [| |apply draw_headers_emits]; [|auto].
      intros [] H; first [reflexivity | discriminate H]. }
    intros _. apply emits_then.
    { apply (emits_for_each _ (fun _ => True)); [|exact I].
      intros i l _.
      eapply emits_weaken; [| |apply draw_hour_emits]; [|auto].
      intros [] [ln H]; first [reflexivity | discriminate H]. }
    intros _. unfold refresh, sleep.
    emits_auto; try exact I; reflexivity. }
  exists (calls (k tt n)). split; [|exact Hk].
  destruct (bool_decide (Some (as_dict f) <> prev)).
  - unfold clear. rewrite bind_emit. reflexivity.
  - rewrite bind_ret_l. reflexivity.
Qed.

(** ** The run of the loop and the command line on the sample day *)

Lemma sample_frames_ok :
  Forall (fun f => frame_ok f = true) [Sample.frame; Sample.frame; Sample.quiet].
Proof. repeat constructor. Qed.

Lemma run_clears_once_per_change_witness :
  Forall (fun f => frame_ok f = true) [Sample.frame; Sample.frame; Sample.quiet] /\
  0 <= 1 /\
  List.filter is_clear
    (calls (sample_draw 1 [Sample.frame; Sample.frame; Sample.quiet] 0)) =
  [Clear; Clear].
Proof.
  split; [exact sample_frames_ok | split; [lia|]].
  destruct (run_clears_once_per_change Sample.clock Sample.late Sample.before_next
              1 true false [Sample.frame; Sample.frame; Sample.quiet] 0%nat
              sample_frames_ok ltac:(lia)) as [H _].
  unfold sample_draw. rewrite H. vm_compute. reflexivity.
Defined.



Lemma sample_missing_before j :
  (j < 10)%nat -> is_Some (as_dict sample_missing_hour !! j).
Proof.
  intros Hj. do 10 (destruct j as [|j]; [vm_compute; eauto|]). lia.
Qed.

Lemma missing_hour_raises_KeyError_witness :
  (5 <= length (offsets sample_missing_hour))%nat /\ (10 < 24)%nat /\
  (forall j, (j < 10)%nat -> is_Some (as_dict sample_missing_hour !! j)) /\
  as_dict sample_missing_hour !! 10%nat = None /\
  result (sample_tick sample_missing_hour None 0) = inl Py.KeyError /\
  List.filter is_pause (calls (sample_tick sample_missing_hour None 0)) = [].
Proof.
  split; [simpl; lia | split; [lia | split; [exact sample_missing_before|]]].
  split; [reflexivity|].
  pose proof (missing_hour_raises_KeyError Sample.clock Sample.late
                Sample.before_next 1 true false sample_missing_hour 10 None 0%nat
                ltac:(simpl; lia) ltac:(lia) sample_missing_before eq_refl) as H.
  cbv zeta in H. destruct H as (H1 & H2 & _). split; [exact H1 | exact H2].
Defined.

Lemma short_offsets_raise_IndexError_witness :
  (length (offsets sample_short_offsets) < 5)%nat /\
  result (sample_tick sample_short_offsets None 0) = inl Py.IndexError /\
  Forall (fun c => c = Clear \/ line_of c = Some 0)
         (calls (sample_tick sample_short_offsets None 0)).
Proof.
  split; [simpl; lia|].
  apply (short_offsets_raise_IndexError Sample.clock Sample.late
           Sample.before_next 1 true false sample_short_offsets None 0%nat).
  simpl. lia.
Defined.

Lemma tick_reads_offsets_1_to_4_witness :
  max_x Sample.frame = max_x sample_other_offsets /\
  as_dict Sample.frame = as_dict sample_other_offsets /\
  offsets Sample.frame !! 0%nat <> offsets sample_other_offsets !! 0%nat /\
  sample_tick Sample.frame None 0 = sample_tick sample_other_offsets None 0.
Proof.
  split; [reflexivity | split; [reflexivity | split; [discriminate|]]].
  apply (tick_reads_offsets_1_to_4 Sample.clock Sample.late Sample.before_next
           1 true false Sample.frame sample_other_offsets None 0%nat);
    reflexivity.
Defined.





Lemma id_zero_is_not_displayed_witness :
  offsets Sample.frame !! 2%nat = Some 8 /\ 8 <> 5 /\ 20 <> 5 /\ 30 <> 5 /\
  task_id Sample.review = 0 /\
  List.filter (is_at_column 5)
    (calls (draw_task Sample.clock Sample.late Sample.before_next false
                      Sample.frame 11 [Sample.review] 0 Sample.review
                      first_line 0%nat)) =
  [Addstr 1 5 "       " (color_pair 7)].
Proof.
  split; [reflexivity | split; [lia | split; [lia | split; [lia|]]]].
  split; [reflexivity|].
  apply (id_zero_is_not_displayed Sample.clock Sample.late Sample.before_next
           false Sample.frame 11 [Sample.review] 0 Sample.review first_line 0%nat
           8 20 30 eq_refl eq_refl eq_refl); lia.
Defined.

Lemma parse_args_app_witness :
  Argparse.parse_args ["-r"; "5"] Argparse.defaults =
  inr (Argparse.set_refresh 5 Argparse.defaults) /\
  Argparse.parse_args ["-a"] (Argparse.set_refresh 5 Argparse.defaults) =
  inr (Argparse.set_all true (Argparse.set_refresh 5 Argparse.defaults)) /\
  Argparse.parse_args (["-r"; "5"] ++ ["-a"]) Argparse.defaults =
  inr (Argparse.set_all true (Argparse.set_refresh 5 Argparse.defaults)) /\
  Argparse.parse_args (["-r"; "5"] ++ ["-r"; Py.str 2]) Argparse.defaults =
  inr (Argparse.set_refresh 2 (Argparse.set_refresh 5 Argparse.defaults)).
Proof.
  split; [reflexivity | split; [reflexivity|]].
  destruct (parse_args_app ["-r"; "5"] ["-a"] Argparse.defaults _ _
              eq_refl eq_refl) as [H1 H2].
  split; [exact H1 | apply H2].
Defined.


Lemma missing_value_exits_witness :
  Argparse.parse_args ["-a"] Argparse.defaults =
  inr (Argparse.set_all true Argparse.defaults) /\
  Argparse.is_option "-s" "-s" "--scheduled" = true /\
  main Sample.clock Sample.late Sample.before_next (fun _ _ => [Sample.frame])
       (["-a"] ++ ["-s"]) 0%nat = mkOut [] 0%nat (inl Py.SystemExit).
Proof.
  split; [reflexivity | split; [reflexivity|]].
  apply (missing_value_exits Sample.clock Sample.late Sample.before_next
           (fun _ _ => [Sample.frame]) ["-a"] _ "-s" 0%nat eq_refl).
  right. reflexivity.
Defined.

Lemma hidden_project_column_row_witness :
  offsets Sample.frame !! 2%nat = Some 8 /\
  offsets Sample.frame !! 3%nat = Some 20 /\
  offsets Sample.frame !! 4%nat = Some 30 /\
  exists common,
    calls (draw_task Sample.clock Sample.late Sample.before_next false
                     Sample.frame 9 [Sample.report; Sample.standup] 1
                     Sample.standup (after_rows 1 true first_line) 1%nat) =
    common ++ [Addstr 2 20 "" (color_pair 8); Addstr 2 30 "Standup" (color_pair 8)] /\
    calls (draw_task Sample.clock Sample.late Sample.before_next true
                     Sample.frame 9 [Sample.report; Sample.standup] 1
                     Sample.standup (after_rows 1 true first_line) 1%nat) =
    common ++ [Addstr 2 20 "Standup" (color_pair 8)].
Proof.
  split; [reflexivity | split; [reflexivity | split; [reflexivity|]]].
  pose proof (hidden_project_column_row Sample.clock Sample.late
                Sample.before_next Sample.frame 9 [Sample.report; Sample.standup]
                1 Sample.standup (after_rows 1 true first_line) 1%nat 8 20 30
                eq_refl eq_refl eq_refl) as H.
  cbv zeta in H. destruct H as (common & H1 & H2 & _).
  exists common. split; [exact H1 | exact H2].
Defined.
